(** * Event booking API: slot overlap validation and the booking state machine

    A shallow embedding of [backend/app/main.py] (with the tables of
    [backend/app/models.py] and the payloads of [backend/app/schemas.py]).

    Modelling conventions.
    - A stored or submitted [datetime] is its wall-clock reading, an integer
      number of microseconds since 1970-01-01T00:00; comparison is the
      integer order and [timedelta(days=1)] is [one_day].  The [DateTime]
      columns store and bind the wall-clock fields of a value.
    - The dates that [list_time_slots] parses are [PyDatetime.t]: the
      wall-clock reading and the UTC offset of an aware value.  Comparing a
      naive with an aware value raises [TypeError], and adding a day beyond
      [datetime.max] (9999-12-31T23:59:59.999999) raises [OverflowError];
      the handler catches neither.
    - The 64-bit range of SQLite integers is outside the model.
    - A [str] is a [string] whose characters are the code points below 256;
      [lower] and [strip] are Python's [str.lower] and [str.strip] on them.
      Outside that range [str.lower] can change the length of a string
      (U+0130 becomes two code points); nothing here is stated about the
      length of a lower-cased string.
    - The database is a record of three tables, each a list of rows in
      insertion order.  An endpoint is a computation in the [Session] monad:
      it reads the tables, and either commits new tables and returns a value,
      or raises and leaves the tables as they were.
    - [datetime.fromisoformat] and [int] are library functions; the one
      endpoint that calls them takes them as parameters. *)

From Stdlib Require Import ZArith List String Ascii Bool Lia.
From Stdlib Require Import Sorting.Sorted Sorting.Permutation.
Import ListNotations.

Local Open Scope string_scope.
Local Open Scope Z_scope.

(** ** Python strings *)

Module PyStr.

(** [str.isspace] on one character. *)
Definition is_space (c : ascii) : bool :=
  let n := nat_of_ascii c in
  ((9 <=? n) && (n <=? 13) || (28 <=? n) && (n <=? 31) || (n =? 32)
   || (n =? 133) || (n =? 160))%nat.

Definition is_upper (c : ascii) : bool :=
  let n := nat_of_ascii c in
  ((65 <=? n) && (n <=? 90)
   || (192 <=? n) && (n <=? 222) && negb (n =? 215))%nat.

Definition lower_char (c : ascii) : ascii :=
  if is_upper c then ascii_of_nat (nat_of_ascii c + 32) else c.

(** [s.lower()] *)
Fixpoint lower (s : string) : string :=
  match s with
  | EmptyString => EmptyString
  | String c r => String (lower_char c) (lower r)
  end.

Fixpoint lstrip (s : string) : string :=
  match s with
  | EmptyString => EmptyString
  | String c r => if is_space c then lstrip r else s
  end.

Fixpoint rstrip (s : string) : string :=
  match s with
  | EmptyString => EmptyString
  | String c r =>
      match rstrip r with
      | EmptyString => if is_space c then EmptyString else String c EmptyString
      | r' => String c r'
      end
  end.

(** [s.strip()] *)
Definition strip (s : string) : string := rstrip (lstrip s).

(** [s.split(sep)] for a one-character separator. *)
Fixpoint split (sep : ascii) (s : string) : list string :=
  match s with
  | EmptyString => [EmptyString]
  | String c r =>
      if Ascii.eqb c sep then EmptyString :: split sep r
      else match split sep r with
           | [] => [String c EmptyString]
           | h :: t => String c h :: t
           end
  end.

(** Truth value of a string: [bool(s)]. *)
Definition truthy (s : string) : bool :=
  match s with EmptyString => false | _ => true end.

(** A string that does not start with a blank. *)
Definition no_lead (s : string) : Prop :=
  match s with
  | EmptyString => True
  | String c _ => is_space c = false
  end.

(** A string that does not end with a blank. *)
Fixpoint no_trail (s : string) : Prop :=
  match s with
  | EmptyString => True
  | String c r =>
      match r with
      | EmptyString => is_space c = false
      | String _ _ => no_trail r
      end
  end.

(** A string of blanks only: [s.isspace()], or [s] empty. *)
Fixpoint all_space (s : string) : bool :=
  match s with
  | EmptyString => true
  | String c r => is_space c && all_space r
  end.

End PyStr.

(** ** Tables ([models.py]) *)

Definition datetime := Z.

(** [timedelta(days=1)], in microseconds. *)
Definition one_day : Z := 86400 * 1000000.

(** A [datetime] as Python computes with it. *)
Module PyDatetime.

(** The wall-clock reading, and the UTC offset when the value is aware. *)
Record t := mk {
  wall : datetime;
  utcoffset : option Z
}.

Definition naive (w : datetime) : t := mk w None.

(** [datetime.max], 9999-12-31T23:59:59.999999. *)
Definition max_wall : Z := 2932897 * one_day - 1.

(** [a < b]: wall clocks of two naive values, instants of two aware values;
    [None] is the [TypeError] of a naive value against an aware one. *)
Definition lt (a b : t) : option bool :=
  match utcoffset a, utcoffset b with
  | None, None => Some (wall a <? wall b)
  | Some oa, Some ob => Some (wall a - oa <? wall b - ob)
  | _, _ => None
  end.

(** [a + timedelta(days=1)]; [None] is the [OverflowError] of a result
    after [datetime.max]. *)
Definition add_day (a : t) : option t :=
  if wall a + one_day <=? max_wall
  then Some (mk (wall a + one_day) (utcoffset a))
  else None.

End PyDatetime.

Module EventCategory.
Record t := mk {
  id : Z;
  name : string;
  description : option string
}.
End EventCategory.

Module TimeSlot.
Record t := mk {
  id : Z;
  category_id : Z;
  start_time : datetime;
  end_time : datetime
}.
End TimeSlot.

Module Booking.
Record t := mk {
  id : Z;
  time_slot_id : Z;
  user_name : string;
  user_email : string;
  booked_at : datetime
}.
End Booking.

Record db := mkdb {
  event_categories : list EventCategory.t;
  time_slots : list TimeSlot.t;
  bookings : list Booking.t
}.

(** ** Payloads and responses ([schemas.py]) *)

Module CategoryRead.
Record t := mk {
  id : Z;
  name : string;
  description : option string
}.
Definition model_validate (c : EventCategory.t) : t :=
  mk (EventCategory.id c) (EventCategory.name c) (EventCategory.description c).
End CategoryRead.

Module TimeSlotCreate.
Record t := mk {
  category_id : Z;
  start_time : datetime;
  end_time : datetime
}.
End TimeSlotCreate.

Module BookingCreate.
Record t := mk {
  user_name : string;
  user_email : string
}.
End BookingCreate.

Module BookingCancel.
Record t := mk {
  user_email : string
}.
End BookingCancel.

Module BookingRead.
Record t := mk {
  id : Z;
  user_name : string;
  user_email : string;
  booked_at : datetime
}.
Definition model_validate (b : Booking.t) : t :=
  mk (Booking.id b) (Booking.user_name b) (Booking.user_email b)
     (Booking.booked_at b).
End BookingRead.

Module TimeSlotRead.
Record t := mk {
  id : Z;
  start_time : datetime;
  end_time : datetime;
  category : CategoryRead.t;
  booking : option BookingRead.t
}.
End TimeSlotRead.

(** ** Exceptions and the session monad *)

Inductive exn :=
| HTTPException (status_code : Z) (detail : string)
| IntegrityError
| ValidationError
| TypeError
| OverflowError.

Inductive result (A : Type) :=
| Ok (a : A)
| Raise (e : exn).
Arguments Ok {A} a.
Arguments Raise {A} e.

(** A request handler: it runs on the tables and leaves the tables. *)
Definition Session (A : Type) : Type := db -> result A * db.

Definition ret {A} (a : A) : Session A := fun d => (Ok a, d).

Definition raise {A} (e : exn) : Session A := fun d => (Raise e, d).

Definition bind {A B} (m : Session A) (k : A -> Session B) : Session B :=
  fun d =>
    match m d with
    | (Ok a, d') => k a d'
    | (Raise e, d') => (Raise e, d')
    end.

Notation "x <- m ;; k" := (bind m (fun x => k))
  (at level 61, m at next level, right associativity).

(** Reading the tables. *)
Definition query {A} (f : db -> A) : Session A := fun d => (Ok (f d), d).

Definition HTTP_400_BAD_REQUEST : Z := 400.
Definition HTTP_403_FORBIDDEN : Z := 403.
Definition HTTP_404_NOT_FOUND : Z := 404.
Definition HTTP_409_CONFLICT : Z := 409.

(** ** The persistence layer *)

(** [session.get(EventCategory, id)] *)
Definition get_category (cid : Z) (d : db) : option EventCategory.t :=
  find (fun c => EventCategory.id c =? cid) (event_categories d).

(** [session.get(TimeSlot, id)] *)
Definition get_time_slot (sid : Z) (d : db) : option TimeSlot.t :=
  find (fun s => TimeSlot.id s =? sid) (time_slots d).

(** [slot.booking]: the one-to-one relationship, loaded by foreign key. *)
Definition slot_booking (slot : TimeSlot.t) (d : db) : option Booking.t :=
  find (fun b => Booking.time_slot_id b =? TimeSlot.id slot) (bookings d).

(** The integer primary key of a new row: one more than the largest. *)
Definition next_id (ids : list Z) : Z :=
  match ids with
  | [] => 1
  | i :: rest => fold_left Z.max rest i + 1
  end.

(** [uq_timeslot_category_time] *)
Definition same_triple (a b : TimeSlot.t) : bool :=
  (TimeSlot.category_id a =? TimeSlot.category_id b)
  && (TimeSlot.start_time a =? TimeSlot.start_time b)
  && (TimeSlot.end_time a =? TimeSlot.end_time b).

(** [session.add(slot); session.commit(); session.refresh(slot)] *)
Definition add_time_slot (cid : Z) (s e : datetime) : Session TimeSlot.t :=
  fun d =>
    let row := TimeSlot.mk (next_id (map TimeSlot.id (time_slots d))) cid s e in
    if existsb (same_triple row) (time_slots d)
    then (Raise IntegrityError, d)
    else (Ok row,
          mkdb (event_categories d) (time_slots d ++ [row]) (bookings d)).

(** [session.add(booking); session.commit(); session.refresh(booking)];
    [booked_at] takes its default, the clock reading [now];
    [time_slot_id] is declared unique. *)
Definition add_booking (now : datetime) (sid : Z) (uname email : string)
  : Session Booking.t :=
  fun d =>
    let row :=
      Booking.mk (next_id (map Booking.id (bookings d))) sid uname email now in
    if existsb (fun b => Booking.time_slot_id b =? sid) (bookings d)
    then (Raise IntegrityError, d)
    else (Ok row,
          mkdb (event_categories d) (time_slots d) (bookings d ++ [row])).

(** [session.delete(booking); session.commit()] *)
Definition delete_booking (b : Booking.t) : Session unit :=
  fun d =>
    (Ok tt,
     mkdb (event_categories d) (time_slots d)
          (filter (fun b' => negb (Booking.id b' =? Booking.id b)) (bookings d))).

(** The attributes [TimeSlotRead.model_validate(slot)] reads: the slot with
    its category and its booking resolved. *)
Definition time_slot_read (slot : TimeSlot.t) (d : db)
  : option TimeSlotRead.t :=
  match get_category (TimeSlot.category_id slot) d with
  | None => None
  | Some c =>
      Some (TimeSlotRead.mk (TimeSlot.id slot) (TimeSlot.start_time slot)
              (TimeSlot.end_time slot) (CategoryRead.model_validate c)
              (option_map BookingRead.model_validate (slot_booking slot d)))
  end.

(** [TimeSlotRead.model_validate(slot)]; a slot without its category does
    not validate. *)
Definition TimeSlotRead_model_validate (slot : TimeSlot.t)
  : Session TimeSlotRead.t :=
  fun d =>
    match time_slot_read slot d with
    | None => (Raise ValidationError, d)
    | Some r => (Ok r, d)
    end.

(** [query.order_by(key)]: rows in ascending key order (SQL leaves the order
    of rows with equal keys open; here a later row comes first). *)
Fixpoint insert_by {A} (key : A -> Z) (x : A) (l : list A) : list A :=
  match l with
  | [] => [x]
  | y :: r => if key x <? key y then x :: l else y :: insert_by key x r
  end.

Fixpoint order_by {A} (key : A -> Z) (l : list A) : list A :=
  match l with
  | [] => []
  | x :: r => insert_by key x (order_by key r)
  end.

(** Running a handler on each row in turn: the list comprehensions over
    [model_validate]. *)
Fixpoint for_each {A B} (f : A -> Session B) (l : list A) : Session (list B) :=
  match l with
  | [] => ret []
  | x :: r => y <- f x ;; ys <- for_each f r ;; ret (y :: ys)
  end.

(** ** Endpoints ([main.py]) *)

(** [init_database]: seeds three categories into an empty category table. *)
Definition init_database : Session unit :=
  fun d =>
    match event_categories d with
    | _ :: _ => (Ok tt, d)
    | [] =>
        (Ok tt,
         mkdb [EventCategory.mk 1 "Cat 1" None;
               EventCategory.mk 2 "Cat 2" None;
               EventCategory.mk 3 "Cat 3" None]
              (time_slots d) (bookings d))
    end.

(** [GET /categories] *)
Definition list_categories : Session (list CategoryRead.t) :=
  categories <- query (fun d => order_by EventCategory.id (event_categories d)) ;;
  ret (map CategoryRead.model_validate categories).

(** The three cases of the overlap query of [create_time_slot]: the new
    start falls inside the existing slot, or the new end does, or the new
    interval contains the existing one. *)
Definition three_cases (payload : TimeSlotCreate.t) (s : TimeSlot.t) : bool :=
  (TimeSlotCreate.start_time payload >=? TimeSlot.start_time s)
  && (TimeSlotCreate.start_time payload <? TimeSlot.end_time s)
  || (TimeSlotCreate.end_time payload >? TimeSlot.start_time s)
     && (TimeSlotCreate.end_time payload <=? TimeSlot.end_time s)
  || (TimeSlotCreate.start_time payload <=? TimeSlot.start_time s)
     && (TimeSlotCreate.end_time payload >=? TimeSlot.end_time s).

(** The [where] clause of that query: same category, and one of the three
    cases. *)
Definition overlapping_where (payload : TimeSlotCreate.t) (s : TimeSlot.t)
  : bool :=
  (TimeSlot.category_id s =? TimeSlotCreate.category_id payload)
  && three_cases payload s.

(** [POST /timeslots] *)
Definition create_time_slot (payload : TimeSlotCreate.t)
  : Session TimeSlotRead.t :=
  category <- query (get_category (TimeSlotCreate.category_id payload)) ;;
  match category with
  | None => raise (HTTPException HTTP_404_NOT_FOUND "Category not found.")
  | Some _ =>
      if TimeSlotCreate.end_time payload <=? TimeSlotCreate.start_time payload
      then raise (HTTPException HTTP_400_BAD_REQUEST
                    "End time must be after the start time.")
      else
        overlapping <-
          query (fun d => find (overlapping_where payload) (time_slots d)) ;;
        match overlapping with
        | Some _ =>
            raise (HTTPException HTTP_409_CONFLICT
                     "A timeslot already exists for the selected time range.")
        | None =>
            slot <- add_time_slot (TimeSlotCreate.category_id payload)
                      (TimeSlotCreate.start_time payload)
                      (TimeSlotCreate.end_time payload) ;;
            TimeSlotRead_model_validate slot
        end
  end.

(** [POST /timeslots/{slot_id}/book]; [now] is the clock reading that
    [booked_at] defaults to. *)
Definition book_time_slot (now : datetime) (slot_id : Z)
  (payload : BookingCreate.t) : Session BookingRead.t :=
  slot <- query (get_time_slot slot_id) ;;
  match slot with
  | None => raise (HTTPException HTTP_404_NOT_FOUND "Time slot not found.")
  | Some slot =>
      existing <- query (slot_booking slot) ;;
      match existing with
      | Some booking =>
          if (PyStr.lower (Booking.user_email booking)
              =? PyStr.lower (BookingCreate.user_email payload))%string
          then ret (BookingRead.model_validate booking)
          else raise (HTTPException HTTP_409_CONFLICT
                        "This time slot is already booked.")
      | None =>
          booking <- add_booking now (TimeSlot.id slot)
                       (PyStr.strip (BookingCreate.user_name payload))
                       (PyStr.strip
                          (PyStr.lower (BookingCreate.user_email payload))) ;;
          ret (BookingRead.model_validate booking)
      end
  end.

(** [POST /timeslots/{slot_id}/cancel] *)
Definition cancel_booking (slot_id : Z) (payload : BookingCancel.t)
  : Session unit :=
  slot <- query (get_time_slot slot_id) ;;
  match slot with
  | None => raise (HTTPException HTTP_404_NOT_FOUND "Time slot not found.")
  | Some slot =>
      existing <- query (slot_booking slot) ;;
      match existing with
      | None =>
          raise (HTTPException HTTP_404_NOT_FOUND
                   "No booking found for this time slot.")
      | Some booking =>
          if negb (PyStr.lower (Booking.user_email booking)
                   =? PyStr.lower (BookingCancel.user_email payload))%string
          then raise (HTTPException HTTP_403_FORBIDDEN
                        "Only the original attendee can cancel this booking.")
          else delete_booking booking
      end
  end.

Section ListTimeSlots.

(** [datetime.fromisoformat] and [int]; [None] is their [ValueError]. *)
Variable fromisoformat : string -> option PyDatetime.t.
Variable int : string -> option Z.

(** [[int(part) for part in parts]] *)
Fixpoint int_each (parts : list string) : option (list Z) :=
  match parts with
  | [] => Some []
  | part :: rest =>
      match int part with
      | None => None
      | Some i =>
          match int_each rest with
          | None => None
          | Some l => Some (i :: l)
          end
      end
  end.

(** [[int(part) for part in category_ids.split(",") if part.strip()]] *)
Definition parse_category_ids (category_ids : string) : option (list Z) :=
  int_each
    (filter (fun part => PyStr.truthy (PyStr.strip part))
       (PyStr.split "," category_ids)).

(** The date window of the query:
    [start_dt <= start_time < end_dt_inclusive], on wall clocks. *)
Definition in_window (start_dt end_dt_inclusive : PyDatetime.t)
  (s : TimeSlot.t) : bool :=
  (TimeSlot.start_time s >=? PyDatetime.wall start_dt)
  && (TimeSlot.start_time s <? PyDatetime.wall end_dt_inclusive).

(** [TimeSlot.category_id.in_(ids)] *)
Definition category_in (ids : list Z) (s : TimeSlot.t) : bool :=
  existsb (fun i => TimeSlot.category_id s =? i) ids.

(** [GET /timeslots] *)
Definition list_time_slots (start_date end_date : string)
  (category_ids : option string) : Session (list TimeSlotRead.t) :=
  if negb (PyStr.truthy start_date) || negb (PyStr.truthy end_date)
  then raise (HTTPException HTTP_400_BAD_REQUEST
                "Start date and end date are required.")
  else
    match fromisoformat start_date with
    | None => raise (HTTPException HTTP_400_BAD_REQUEST
                       "Invalid start_date format. Use YYYY-MM-DD.")
    | Some start_dt =>
        match fromisoformat end_date with
        | None => raise (HTTPException HTTP_400_BAD_REQUEST
                           "Invalid end_date format. Use YYYY-MM-DD.")
        | Some end_dt =>
            match PyDatetime.lt end_dt start_dt with
            | None => raise TypeError
            | Some true =>
                raise (HTTPException HTTP_400_BAD_REQUEST
                         "end_date must not be earlier than start_date.")
            | Some false =>
                match PyDatetime.add_day end_dt with
                | None => raise OverflowError
                | Some end_dt_inclusive =>
                    let window := in_window start_dt end_dt_inclusive in
                    let run (criteria : TimeSlot.t -> bool) :=
                      slots <-
                        query (fun d =>
                                 order_by TimeSlot.start_time
                                   (filter criteria (time_slots d))) ;;
                      for_each TimeSlotRead_model_validate slots in
                    match category_ids with
                    | None => run window
                    | Some given =>
                        if PyStr.truthy given
                        then
                          match parse_category_ids given with
                          | None =>
                              raise (HTTPException HTTP_400_BAD_REQUEST
                                       "category_ids must contain integers.")
                          | Some [] => run window
                          | Some ids =>
                              run (fun s => window s && category_in ids s)
                          end
                        else run window
                    end
                end
            end
        end
    end.

End ListTimeSlots.

(** ** The specification's vocabulary *)

(** Email normalization: lower-cased, then trimmed, as [book_time_slot]
    stores it. *)
Definition normalize_email (email : string) : string :=
  PyStr.strip (PyStr.lower email).

(** Trimming in the specification's words: [t] is [s] without the blanks at
    its two ends. *)
Definition trimmed (s t : string) : Prop :=
  exists l r,
    s = (l ++ t ++ r)%string
    /\ PyStr.all_space l = true /\ PyStr.all_space r = true
    /\ PyStr.no_lead t /\ PyStr.no_trail t.

(** Lower-casing in the specification's words: [t] is [s] with every
    character replaced by its lower-case form. *)
Definition lower_cased (s t : string) : Prop :=
  list_ascii_of_string t = map PyStr.lower_char (list_ascii_of_string s).


(** The error kinds of the specification. *)
Definition CategoryNotFound : exn :=
  HTTPException HTTP_404_NOT_FOUND "Category not found.".
Definition InvalidRange : exn :=
  HTTPException HTTP_400_BAD_REQUEST "End time must be after the start time.".
Definition SlotConflict : exn :=
  HTTPException HTTP_409_CONFLICT
    "A timeslot already exists for the selected time range.".
Definition SlotNotFound : exn :=
  HTTPException HTTP_404_NOT_FOUND "Time slot not found.".
Definition AlreadyBooked : exn :=
  HTTPException HTTP_409_CONFLICT "This time slot is already booked.".
Definition NoBooking : exn :=
  HTTPException HTTP_404_NOT_FOUND "No booking found for this time slot.".
Definition Forbidden : exn :=
  HTTPException HTTP_403_FORBIDDEN
    "Only the original attendee can cancel this booking.".
Definition EndBeforeStart : exn :=
  HTTPException HTTP_400_BAD_REQUEST
    "end_date must not be earlier than start_date.".
Definition DatesRequired : exn :=
  HTTPException HTTP_400_BAD_REQUEST "Start date and end date are required.".

(** ** Invariants of the tables *)

(** Each slot has at most one booking: [Booking.time_slot_id] is unique. *)
Definition one_booking_per_slot (d : db) : Prop :=
  NoDup (map Booking.time_slot_id (bookings d)).



(** Every stored email is in normal form. *)
Definition emails_normalized (d : db) : Prop :=
  forall b, In b (bookings d) ->
            normalize_email (Booking.user_email b) = Booking.user_email b.

(** ** Instances of the library parsers *)

Module Parsers.

Definition digit (c : ascii) : option Z :=
  let n := nat_of_ascii c in
  if ((48 <=? n) && (n <=? 57))%nat then Some (Z.of_nat (n - 48)) else None.

Definition is_leap (y : Z) : bool :=
  (y mod 4 =? 0) && (negb (y mod 100 =? 0) || (y mod 400 =? 0)).

Definition days_in_month (y m : Z) : Z :=
  if m =? 2 then (if is_leap y then 29 else 28)
  else if (m =? 4) || (m =? 6) || (m =? 9) || (m =? 11) then 30 else 31.

(** Days from 1970-01-01 to the civil date [y]-[m]-[d]. *)
Definition days_from_civil (y m d : Z) : Z :=
  let y' := if m <=? 2 then y - 1 else y in
  let era := y' / 400 in
  let yoe := y' - era * 400 in
  let doy := (153 * (if m >? 2 then m - 3 else m + 9) + 2) / 5 + d - 1 in
  let doe := yoe * 365 + yoe / 4 - yoe / 100 + doy in
  era * 146097 + doe - 719468.

(** [datetime.fromisoformat] on the documented format [YYYY-MM-DD]:
    the naive midnight of that day. *)
Definition iso_date (s : string) : option PyDatetime.t :=
  match list_ascii_of_string s with
  | [y1; y2; y3; y4; h1; m1; m2; h2; d1; d2] =>
      match digit y1, digit y2, digit y3, digit y4,
            digit m1, digit m2, digit d1, digit d2 with
      | Some a, Some b, Some c, Some e, Some f, Some g, Some h, Some i =>
          let y := 1000 * a + 100 * b + 10 * c + e in
          let m := 10 * f + g in
          let dd := 10 * h + i in
          if Ascii.eqb h1 "-" && Ascii.eqb h2 "-"
             && (1 <=? y) && (1 <=? m) && (m <=? 12)
             && (1 <=? dd) && (dd <=? days_in_month y m)
          then Some (PyDatetime.naive (days_from_civil y m dd * one_day))
          else None
      | _, _, _, _, _, _, _, _ => None
      end
  | _ => None
  end.



Fixpoint digits (acc : Z) (s : string) : option Z :=
  match s with
  | EmptyString => Some acc
  | String c r =>
      match digit c with
      | None => None
      | Some n => digits (10 * acc + n) r
      end
  end.

(** [int] on plain decimal numerals, with surrounding whitespace. *)
Definition decimal (s : string) : option Z :=
  match PyStr.strip s with
  | EmptyString => None
  | String c r as t =>
      if Ascii.eqb c "-" then
        match r with
        | EmptyString => None
        | _ => option_map Z.opp (digits 0 r)
        end
      else digits 0 t
  end.

End Parsers.

(** ** A scenario: one category, one slot, one booking *)

Module Scenario.

(** 2024-06-01T10:00 and 11:00, 12:00 in microseconds since 1970-01-01. *)
Definition t_10_00 : datetime := 19875 * one_day + 10 * 3600 * 1000000.
Definition t_11_00 : datetime := 19875 * one_day + 11 * 3600 * 1000000.

Definition music : EventCategory.t := EventCategory.mk 1 "Music" None.

Definition empty : db := mkdb [music] [] [].

(** Slot A = [10:00, 11:00) created in the category. *)
Definition with_slot_A : db :=
  snd (create_time_slot (TimeSlotCreate.mk 1 t_10_00 t_11_00) empty).

(** Slot A booked by ("Alice", "Alice@x.com") at 09:00. *)
Definition booked_by_alice : db :=
  snd (book_time_slot (t_10_00 - 3600 * 1000000) 1
         (BookingCreate.mk "Alice" "Alice@x.com") with_slot_A).

End Scenario.

(** ** The system as a state machine *)

Inductive request :=
| CreateTimeSlot (payload : TimeSlotCreate.t)
| BookTimeSlot (now : datetime) (slot_id : Z) (payload : BookingCreate.t)
| CancelBooking (slot_id : Z) (payload : BookingCancel.t).

(** The tables after a request has been served. *)
Definition serve (r : request) (d : db) : db :=
  match r with
  | CreateTimeSlot payload => snd (create_time_slot payload d)
  | BookTimeSlot now slot_id payload => snd (book_time_slot now slot_id payload d)
  | CancelBooking slot_id payload => snd (cancel_booking slot_id payload d)
  end.


(** ** Derived notions *)

(** Boolean comparisons of timestamps, case by case. *)
Ltac by_cases_on_order :=
  rewrite ?Z.geb_leb, ?Z.gtb_ltb;
  repeat match goal with
    | |- context [?a <=? ?b] => destruct (Z.leb_spec a b)
    | |- context [?a <? ?b] => destruct (Z.ltb_spec a b)
    | |- context [?a =? ?b] => destruct (Z.eqb_spec a b)
    end;
  simpl.

(** The slot that [create_time_slot] inserts, and the tables with it. *)
Definition new_slot (payload : TimeSlotCreate.t) (d : db) : TimeSlot.t :=
  TimeSlot.mk (next_id (map TimeSlot.id (time_slots d)))
    (TimeSlotCreate.category_id payload)
    (TimeSlotCreate.start_time payload)
    (TimeSlotCreate.end_time payload).

Definition with_new_slot (payload : TimeSlotCreate.t) (d : db) : db :=
  mkdb (event_categories d) (time_slots d ++ [new_slot payload d]) (bookings d).

(** The booking that [book_time_slot] inserts for an open slot, and the
    tables with it. *)
Definition new_booking (now : datetime) (slot_id : Z)
  (payload : BookingCreate.t) (d : db) : Booking.t :=
  Booking.mk (next_id (map Booking.id (bookings d))) slot_id
    (PyStr.strip (BookingCreate.user_name payload))
    (normalize_email (BookingCreate.user_email payload)) now.

Definition with_booking (b : Booking.t) (d : db) : db :=
  mkdb (event_categories d) (time_slots d) (bookings d ++ [b]).

Definition without_booking (b : Booking.t) (d : db) : db :=
  mkdb (event_categories d) (time_slots d)
    (filter (fun b' => negb (Booking.id b' =? Booking.id b)) (bookings d)).

(** Ascending order of keys. *)
Definition le_by {A} (key : A -> Z) (a b : A) : Prop := key a <= key b.



(** Primary keys are unique. *)
Definition slot_ids_unique (d : db) : Prop :=
  NoDup (map TimeSlot.id (time_slots d)).

Definition booking_ids_unique (d : db) : Prop :=
  NoDup (map Booking.id (bookings d)).

(** Every booking belongs to a stored slot. *)
Definition bookings_have_slot (d : db) : Prop :=
  forall b, In b (bookings d) ->
            In (Booking.time_slot_id b) (map TimeSlot.id (time_slots d)).



(** A string of blanks only. *)
Definition blank (s : string) : Prop := PyStr.strip s = "".


(** One list is the beginning of another. *)
Definition prefix_of {A} (l l' : list A) : Prop := exists r, l' = (l ++ r)%list.


(** The constraints of the [BookingCreate] schema: lengths in characters. *)
Definition BookingCreate_valid (p : BookingCreate.t) : Prop :=
  (1 <= String.length (BookingCreate.user_name p) <= 120)%nat
  /\ (3 <= String.length (BookingCreate.user_email p) <= 160)%nat.

(** * Properties *)

(** ** Strings *)

Module PyStrFacts.
Import PyStr.

Lemma lower_char_idem c : lower_char (lower_char c) = lower_char c.
Proof.
  destruct c as [[] [] [] [] [] [] [] []]; vm_compute; reflexivity.
Qed.

Lemma is_space_lower_char c : is_space (lower_char c) = is_space c.
Proof.
  destruct c as [[] [] [] [] [] [] [] []]; vm_compute; reflexivity.
Qed.

Lemma lower_idem s : lower (lower s) = lower s.
Proof.
  induction s as [|c r IH]; simpl; [reflexivity|].
  now rewrite lower_char_idem, IH.
Qed.

Lemma lstrip_lower s : lstrip (lower s) = lower (lstrip s).
Proof.
  induction s as [|c r IH]; simpl; [reflexivity|].
  rewrite is_space_lower_char. destruct (is_space c); auto.
Qed.

Lemma rstrip_lower s : rstrip (lower s) = lower (rstrip s).
Proof.
  induction s as [|c r IH]; simpl; [reflexivity|].
  rewrite IH, is_space_lower_char.
  destruct (rstrip r) as [|c' r'] eqn:E; simpl.
  - destruct (is_space c); reflexivity.
  - reflexivity.
Qed.

Lemma strip_lower s : strip (lower s) = lower (strip s).
Proof. unfold strip. now rewrite lstrip_lower, rstrip_lower. Qed.

Lemma lstrip_no_lead s : no_lead (lstrip s).
Proof.
  induction s as [|c r IH]; simpl; [exact I|].
  destruct (is_space c) eqn:E; simpl; auto.
Qed.

Lemma lstrip_fix s : no_lead s -> lstrip s = s.
Proof. destruct s as [|c r]; simpl; [reflexivity|]. now intros ->. Qed.

Lemma rstrip_no_lead s : no_lead s -> no_lead (rstrip s).
Proof.
  destruct s as [|c r]; simpl; [auto|]. intros H.
  destruct (rstrip r); simpl; [rewrite H|]; simpl; assumption.
Qed.

Lemma rstrip_cons c r c' r' :
  rstrip r = String c' r' -> rstrip (String c r) = String c (String c' r').
Proof. intros E. cbn [rstrip]. now rewrite E. Qed.



Lemma lstrip_all_space l s : all_space l = true -> lstrip (l ++ s) = lstrip s.
Proof.
  induction l as [|c l IH]; simpl; [reflexivity|].
  intros H. apply andb_true_iff in H. destruct H as [Hc Hl].
  rewrite Hc. auto.
Qed.

Lemma rstrip_all_space r : all_space r = true -> rstrip r = EmptyString.
Proof.
  induction r as [|c r IH]; simpl; [reflexivity|].
  intros H. apply andb_true_iff in H. destruct H as [Hc Hr].
  now rewrite (IH Hr), Hc.
Qed.

Lemma rstrip_app_all_space t r :
  all_space r = true -> rstrip (t ++ r) = rstrip t.
Proof.
  intros Hr. induction t as [|c t IH]; simpl.
  - now apply rstrip_all_space.
  - now rewrite IH.
Qed.

Lemma rstrip_fix s : no_trail s -> rstrip s = s.
Proof.
  induction s as [|c r IH]; [reflexivity|].
  destruct r as [|c' r'].
  - simpl. now intros ->.
  - intros H. change (no_trail (String c' r')) in H.
    apply rstrip_cons. exact (IH H).
Qed.

Lemma rstrip_no_trail s : no_trail (rstrip s).
Proof.
  induction s as [|c r IH]; [exact I|].
  cbn [rstrip]. destruct (rstrip r) as [|c' r'] eqn:E.
  - destruct (is_space c) eqn:Ec; simpl; auto.
  - exact IH.
Qed.

Lemma lstrip_split s :
  exists l, s = (l ++ lstrip s)%string /\ all_space l = true.
Proof.
  induction s as [|c r [l [Hs Hl]]].
  - exists EmptyString. auto.
  - simpl. destruct (is_space c) eqn:Ec.
    + exists (String c l). simpl. rewrite Ec, Hl. split; [|reflexivity].
      now rewrite <- Hs.
    + exists EmptyString. auto.
Qed.

Lemma rstrip_split s :
  exists r, s = (rstrip s ++ r)%string /\ all_space r = true.
Proof.
  induction s as [|c s [r [Hs Hr]]].
  - exists EmptyString. auto.
  - cbn [rstrip]. destruct (rstrip s) as [|c' s'] eqn:E.
    + simpl in Hs. destruct (is_space c) eqn:Ec.
      * exists (String c r). simpl. rewrite Ec, Hr. split; [|reflexivity].
        now rewrite <- Hs.
      * exists r. simpl. split; [|assumption]. now rewrite <- Hs.
    + exists r. split; [|assumption]. simpl. simpl in Hs. now rewrite <- Hs.
Qed.

End PyStrFacts.

(** [strip] trims, and what trims is [strip]: the relation has one answer. *)
Lemma strip_trimmed s : trimmed s (PyStr.strip s).
Proof.
  unfold trimmed, PyStr.strip.
  destruct (PyStrFacts.lstrip_split s) as [l [Hs Hl]].
  destruct (PyStrFacts.rstrip_split (PyStr.lstrip s)) as [r [Hx Hr]].
  exists l, r. repeat split; auto.
  - rewrite <- Hx. exact Hs.
  - apply PyStrFacts.rstrip_no_lead, PyStrFacts.lstrip_no_lead.
  - apply PyStrFacts.rstrip_no_trail.
Qed.

Lemma trimmed_unique s t : trimmed s t -> t = PyStr.strip s.
Proof.
  intros [l [r [-> [Hl [Hr [Hlead Htrail]]]]]].
  unfold PyStr.strip. rewrite (PyStrFacts.lstrip_all_space l _ Hl).
  destruct t as [|c t'].
  - simpl.
    assert (PyStr.lstrip r = EmptyString) as ->; [|reflexivity].
    clear -Hr. induction r as [|c r IH]; simpl; [reflexivity|].
    simpl in Hr. apply andb_true_iff in Hr. destruct Hr as [Hc Hr].
    rewrite Hc. auto.
  - rewrite (PyStrFacts.lstrip_fix (String c t' ++ r)); [|exact Hlead].
    rewrite (PyStrFacts.rstrip_app_all_space _ _ Hr).
    symmetry. now apply PyStrFacts.rstrip_fix.
Qed.

Lemma lower_lower_cased s : lower_cased s (PyStr.lower s).
Proof.
  unfold lower_cased. induction s as [|c r IH]; simpl; [reflexivity|].
  now rewrite IH.
Qed.


Lemma lower_normalize_email email :
  PyStr.lower (normalize_email email) = normalize_email email.
Proof.
  unfold normalize_email.
  now rewrite <- PyStrFacts.strip_lower, PyStrFacts.lower_idem.
Qed.

(** Emails whose normal forms differ differ already in lower case. *)
Lemma normalize_neq_lower_neq a b :
  normalize_email a <> normalize_email b -> PyStr.lower a <> PyStr.lower b.
Proof. unfold normalize_email. intros H E. apply H. now rewrite E. Qed.

(** ** Slot creation *)



(** The handler, one guard after the other. *)
Lemma create_time_slot_unfold payload d :
  create_time_slot payload d =
  match get_category (TimeSlotCreate.category_id payload) d with
  | None => (Raise CategoryNotFound, d)
  | Some _ =>
      if TimeSlotCreate.end_time payload <=? TimeSlotCreate.start_time payload
      then (Raise InvalidRange, d)
      else
        match find (overlapping_where payload) (time_slots d) with
        | Some _ => (Raise SlotConflict, d)
        | None =>
            (slot <- add_time_slot (TimeSlotCreate.category_id payload)
                       (TimeSlotCreate.start_time payload)
                       (TimeSlotCreate.end_time payload) ;;
             TimeSlotRead_model_validate slot) d
        end
  end.
Proof.
  unfold create_time_slot, bind at 1, query at 1.
  destruct (get_category _ d); [|reflexivity].
  destruct (_ <=? _); [reflexivity|].
  unfold bind at 1, query.
  destruct (find _ _); reflexivity.
Qed.

(** A payload identical to a stored slot is caught by the overlap query, so
    the unique constraint on (category, start, end) never fires. *)
Lemma no_overlap_no_duplicate payload slots i :
  TimeSlotCreate.start_time payload < TimeSlotCreate.end_time payload ->
  find (overlapping_where payload) slots = None ->
  existsb
    (same_triple
       (TimeSlot.mk i (TimeSlotCreate.category_id payload)
          (TimeSlotCreate.start_time payload)
          (TimeSlotCreate.end_time payload))) slots = false.
Proof.
  intros Hp Hnone.
  destruct (existsb _ slots) eqn:E; [|reflexivity].
  apply existsb_exists in E. destruct E as [s [Hin Hs]].
  pose proof (find_none _ _ Hnone s Hin) as Hno.
  unfold same_triple in Hs; simpl in Hs.
  rewrite !andb_true_iff, !Z.eqb_eq in Hs. destruct Hs as [[Hc Hst] Hen].
  unfold overlapping_where, three_cases in Hno.
  rewrite <- Hc, <- Hst, <- Hen in Hno.
  revert Hno. by_cases_on_order; intros; try discriminate; lia.
Qed.

Lemma create_time_slot_ok payload d c :
  get_category (TimeSlotCreate.category_id payload) d = Some c ->
  TimeSlotCreate.start_time payload < TimeSlotCreate.end_time payload ->
  find (overlapping_where payload) (time_slots d) = None ->
  create_time_slot payload d =
  (Ok (TimeSlotRead.mk (TimeSlot.id (new_slot payload d))
         (TimeSlotCreate.start_time payload)
         (TimeSlotCreate.end_time payload)
         (CategoryRead.model_validate c)
         (option_map BookingRead.model_validate
            (slot_booking (new_slot payload d) (with_new_slot payload d)))),
   with_new_slot payload d).
Proof.
  intros Hc Hp Hfree.
  rewrite create_time_slot_unfold, Hc, Hfree.
  destruct (Z.leb_spec (TimeSlotCreate.end_time payload)
              (TimeSlotCreate.start_time payload)); [lia|].
  unfold bind, add_time_slot.
  rewrite (no_overlap_no_duplicate payload (time_slots d) _ Hp Hfree).
  unfold TimeSlotRead_model_validate, time_slot_read.
  fold (new_slot payload d). fold (with_new_slot payload d).
  change (get_category (TimeSlot.category_id (new_slot payload d))
            (with_new_slot payload d))
    with (get_category (TimeSlotCreate.category_id payload) d).
  rewrite Hc. reflexivity.
Qed.






Lemma find_none_of {A} (f : A -> bool) l :
  (forall x, In x l -> f x = false) -> find f l = None.
Proof.
  induction l as [|y l IH]; simpl; intros H; [reflexivity|].
  rewrite (H y (or_introl eq_refl)). auto.
Qed.






(** ** Booking and cancelling *)

Lemma get_time_slot_id sid d slot :
  get_time_slot sid d = Some slot -> TimeSlot.id slot = sid.
Proof.
  unfold get_time_slot. intros H. apply find_some in H.
  now apply Z.eqb_eq.
Qed.

Lemma find_none_existsb {A} (f : A -> bool) l :
  find f l = None -> existsb f l = false.
Proof.
  induction l as [|x l IH]; simpl; [reflexivity|].
  destruct (f x); [discriminate|auto].
Qed.

Lemma find_app_last {A} (f : A -> bool) l x :
  find f l = None -> f x = true -> find f (l ++ [x]) = Some x.
Proof.
  induction l as [|y l IH]; simpl; intros Hl Hx.
  - now rewrite Hx.
  - destruct (f y); [discriminate|auto].
Qed.

(** The handlers, one guard after the other. *)
Lemma book_time_slot_unfold now sid payload d :
  book_time_slot now sid payload d =
  match get_time_slot sid d with
  | None => (Raise SlotNotFound, d)
  | Some slot =>
      match slot_booking slot d with
      | Some booking =>
          if (PyStr.lower (Booking.user_email booking)
              =? PyStr.lower (BookingCreate.user_email payload))%string
          then (Ok (BookingRead.model_validate booking), d)
          else (Raise AlreadyBooked, d)
      | None =>
          (Ok (BookingRead.model_validate
                 (new_booking now (TimeSlot.id slot) payload d)),
           with_booking (new_booking now (TimeSlot.id slot) payload d) d)
      end
  end.
Proof.
  unfold book_time_slot, bind at 1, query at 1.
  destruct (get_time_slot sid d) as [slot|]; [|reflexivity].
  unfold bind at 1, query.
  destruct (slot_booking slot d) as [b|] eqn:E.
  - destruct (_ =? _)%string; reflexivity.
  - unfold bind, add_booking.
    unfold slot_booking in E. rewrite (find_none_existsb _ _ E).
    reflexivity.
Qed.

Lemma cancel_booking_unfold sid payload d :
  cancel_booking sid payload d =
  match get_time_slot sid d with
  | None => (Raise SlotNotFound, d)
  | Some slot =>
      match slot_booking slot d with
      | None => (Raise NoBooking, d)
      | Some booking =>
          if (PyStr.lower (Booking.user_email booking)
              =? PyStr.lower (BookingCancel.user_email payload))%string
          then (Ok tt, without_booking booking d)
          else (Raise Forbidden, d)
      end
  end.
Proof.
  unfold cancel_booking, bind at 1, query at 1.
  destruct (get_time_slot sid d) as [slot|]; [|reflexivity].
  unfold bind at 1, query.
  destruct (slot_booking slot d) as [b|]; [|reflexivity].
  destruct (_ =? _)%string; reflexivity.
Qed.

(** A new primary key is not among the old ones. *)
Lemma fold_left_max_ge rest : forall i x,
  In x (i :: rest) -> x <= fold_left Z.max rest i.
Proof.
  induction rest as [|y rest IH]; simpl; intros i x H.
  - destruct H as [->|[]]. lia.
  - destruct H as [->|[->|H]].
    + specialize (IH (Z.max x y) (Z.max x y) (or_introl eq_refl)). lia.
    + specialize (IH (Z.max i x) (Z.max i x) (or_introl eq_refl)). lia.
    + apply IH. now right.
Qed.

Lemma next_id_fresh ids : ~ In (next_id ids) ids.
Proof.
  destruct ids as [|i rest]; simpl; [tauto|].
  intros H. pose proof (fold_left_max_ge rest i _ H). lia.
Qed.

(** What the code does on a booked slot when the two emails agree in lower
    case: the stored booking comes back and nothing is written. *)
Lemma book_time_slot_same_lower now sid payload d slot b :
  get_time_slot sid d = Some slot ->
  slot_booking slot d = Some b ->
  PyStr.lower (Booking.user_email b)
  = PyStr.lower (BookingCreate.user_email payload) ->
  book_time_slot now sid payload d = (Ok (BookingRead.model_validate b), d).
Proof.
  intros Hs Hb He. rewrite book_time_slot_unfold, Hs, Hb.
  apply String.eqb_eq in He. now rewrite He.
Qed.

(** C1, at the specification's own scenario: slot A is booked with
    "Alice@x.com", stored as "alice@x.com"; the retry with "ALICE@X.COM "
    has the same normalized email, yet [book_time_slot] compares the emails
    in lower case without trimming and raises the 409 conflict. *)
Theorem rebook_with_padded_email_conflicts :
  let retry := BookingCreate.mk "Alice" "ALICE@X.COM " in
  option_map Booking.user_email
    (slot_booking (TimeSlot.mk 1 1 Scenario.t_10_00 Scenario.t_11_00)
       Scenario.booked_by_alice) = Some "alice@x.com"
  /\ normalize_email (BookingCreate.user_email retry) = "alice@x.com"
  /\ book_time_slot Scenario.t_10_00 1 retry Scenario.booked_by_alice
     = (Raise AlreadyBooked, Scenario.booked_by_alice).
Proof.
  repeat split; vm_compute; reflexivity.
Qed.

(** C6. On a booked slot, a request whose normalized email differs from the
    normalized email of the stored booking (or from the stored email itself,
    when the stored emails are in normal form) raises the 409 conflict and
    leaves the tables, and so the booking, as they were. *)
Theorem book_booked_slot_other_email_conflicts :
  forall (now : datetime) (sid : Z) (payload : BookingCreate.t) (d : db)
         (slot : TimeSlot.t) (b : Booking.t),
    get_time_slot sid d = Some slot ->
    slot_booking slot d = Some b ->
    normalize_email (BookingCreate.user_email payload)
      <> normalize_email (Booking.user_email b)
    \/ (emails_normalized d
        /\ normalize_email (BookingCreate.user_email payload)
           <> Booking.user_email b) ->
    book_time_slot now sid payload d = (Raise AlreadyBooked, d).
Proof.
  intros now sid payload d slot b Hs Hb Hdiff.
  assert (Hn : normalize_email (BookingCreate.user_email payload)
               <> normalize_email (Booking.user_email b)).
  { destruct Hdiff as [H|[Hinv H]]; [exact H|].
    unfold slot_booking in Hb. apply find_some in Hb.
    rewrite (Hinv b (proj1 Hb)). exact H. }
  rewrite book_time_slot_unfold, Hs, Hb.
  apply normalize_neq_lower_neq in Hn.
  destruct (String.eqb_spec (PyStr.lower (Booking.user_email b))
              (PyStr.lower (BookingCreate.user_email payload)));
    [congruence|reflexivity].
Qed.

Lemma book_booked_slot_other_email_conflicts_witness :
  book_time_slot Scenario.t_10_00 1 (BookingCreate.mk "Bob" "bob@x.com")
    Scenario.booked_by_alice
  = (Raise AlreadyBooked, Scenario.booked_by_alice).
Proof.
  apply (book_booked_slot_other_email_conflicts Scenario.t_10_00 1
           (BookingCreate.mk "Bob" "bob@x.com") Scenario.booked_by_alice
           (TimeSlot.mk 1 1 Scenario.t_10_00 Scenario.t_11_00)
           (Booking.mk 1 1 "Alice" "alice@x.com"
              (Scenario.t_10_00 - 3600 * 1000000))).
  - vm_compute. reflexivity.
  - vm_compute. reflexivity.
  - left. vm_compute. discriminate.
Defined.

(** C7. On an open slot, [book_time_slot] appends exactly one booking: for
    that slot, with a fresh id, the clock reading as timestamp, as name the
    submitted name without the blanks at its two ends, and as email the
    submitted email with every character in lower case and then without the
    blanks at its two ends; it returns that booking, and the slot then has
    it as its booking.  "Alice@x.com" is stored as "alice@x.com". *)
Theorem book_open_slot_creates_booking :
  forall (now : datetime) (sid : Z) (payload : BookingCreate.t) (d : db)
         (slot : TimeSlot.t),
    get_time_slot sid d = Some slot ->
    slot_booking slot d = None ->
    exists (b : Booking.t) (lowered : string),
      book_time_slot now sid payload d
      = (Ok (BookingRead.mk (Booking.id b) (Booking.user_name b)
               (Booking.user_email b) now),
         mkdb (event_categories d) (time_slots d) (bookings d ++ [b]))
      /\ Booking.time_slot_id b = sid
      /\ Booking.booked_at b = now
      /\ ~ In (Booking.id b) (map Booking.id (bookings d))
      /\ trimmed (BookingCreate.user_name payload) (Booking.user_name b)
      /\ lower_cased (BookingCreate.user_email payload) lowered
      /\ trimmed lowered (Booking.user_email b)
      /\ slot_booking slot (snd (book_time_slot now sid payload d)) = Some b
      /\ lower_cased "Alice@x.com" "alice@x.com"
      /\ trimmed "alice@x.com" "alice@x.com".
Proof.
  intros now sid payload d slot Hs Hopen.
  pose proof (get_time_slot_id _ _ _ Hs) as Hid.
  exists (new_booking now sid payload d),
         (PyStr.lower (BookingCreate.user_email payload)).
  rewrite book_time_slot_unfold, Hs, Hopen, Hid.
  split; [reflexivity|]. split; [reflexivity|]. split; [reflexivity|].
  split; [apply next_id_fresh|].
  split; [apply strip_trimmed|].
  split; [apply lower_lower_cased|].
  split; [apply strip_trimmed|].
  split.
  - cbn [snd]. unfold slot_booking in *. simpl.
    apply find_app_last; [exact Hopen|].
    simpl. rewrite Hid. apply Z.eqb_refl.
  - split; [reflexivity|].
    exists EmptyString, EmptyString. repeat split; reflexivity.
Qed.

Lemma book_open_slot_creates_booking_witness :
  exists b,
    book_time_slot Scenario.t_10_00 1
      (BookingCreate.mk "  Alice " " Alice@X.COM ") Scenario.with_slot_A
    = (Ok (BookingRead.mk (Booking.id b) (Booking.user_name b)
             (Booking.user_email b) Scenario.t_10_00),
       mkdb (event_categories Scenario.with_slot_A)
         (time_slots Scenario.with_slot_A)
         (bookings Scenario.with_slot_A ++ [b]))
    /\ Booking.user_name b = "Alice"
    /\ Booking.user_email b = "alice@x.com".
Proof.
  destruct (book_open_slot_creates_booking Scenario.t_10_00 1
              (BookingCreate.mk "  Alice " " Alice@X.COM ")
              Scenario.with_slot_A
              (TimeSlot.mk 1 1 Scenario.t_10_00 Scenario.t_11_00))
    as [b [lowered [Hrun [_ [_ [_ [Hname [Hlow [Hemail _]]]]]]]]].
  - vm_compute. reflexivity.
  - vm_compute. reflexivity.
  - exists b. split; [exact Hrun|].
    apply trimmed_unique in Hname, Hemail.
    assert (Hl : lowered = " alice@x.com ").
    { rewrite <- (string_of_list_ascii_of_string lowered).
      unfold lower_cased in Hlow. rewrite Hlow. reflexivity. }
    subst lowered. split; assumption.
Defined.

(** What the code does on a booked slot when the emails differ after
    normalization: the 403, and nothing is written. *)
Lemma cancel_booking_other_email sid payload d slot b :
  get_time_slot sid d = Some slot ->
  slot_booking slot d = Some b ->
  normalize_email (BookingCancel.user_email payload)
    <> normalize_email (Booking.user_email b) ->
  cancel_booking sid payload d = (Raise Forbidden, d).
Proof.
  intros Hs Hb Hn. rewrite cancel_booking_unfold, Hs, Hb.
  apply normalize_neq_lower_neq in Hn.
  destruct (String.eqb_spec (PyStr.lower (Booking.user_email b))
              (PyStr.lower (BookingCancel.user_email payload)));
    [congruence|reflexivity].
Qed.

Lemma NoDup_map_inj {A B} (f : A -> B) l :
  NoDup (map f l) -> forall a b, In a l -> In b l -> f a = f b -> a = b.
Proof.
  induction l as [|x l IH]; simpl; intros Hnd a b Ha Hb E; [tauto|].
  inversion Hnd as [|? ? Hx Hl]; subst.
  destruct Ha as [->|Ha], Hb as [->|Hb]; auto.
  - exfalso. apply Hx. rewrite E. now apply in_map.
  - exfalso. apply Hx. rewrite <- E. now apply in_map.
Qed.

Lemma NoDup_map_filter {A B} (f : A -> B) (g : A -> bool) l :
  NoDup (map f l) -> NoDup (map f (filter g l)).
Proof.
  induction l as [|x l IH]; simpl; intros Hnd; [constructor|].
  inversion Hnd as [|? ? Hx Hl]; subst.
  destruct (g x); simpl; auto.
  constructor; auto.
  intros Hin. apply Hx. apply in_map_iff in Hin.
  destruct Hin as [y [Hy Hin]]. apply filter_In in Hin.
  rewrite <- Hy. apply in_map. tauto.
Qed.

Lemma NoDup_snoc {A} (l : list A) x :
  NoDup l -> ~ In x l -> NoDup (l ++ [x]).
Proof.
  intros Hl Hx. apply NoDup_app; [assumption|repeat constructor; simpl; tauto|].
  intros a Ha [<-|[]]. contradiction.
Qed.

(** What the code does on a booked slot when the two emails agree in lower
    case: the booking is deleted, the slot is open again, and the next
    booking request for it succeeds. *)
Lemma cancel_booking_same_lower sid payload d slot b :
  one_booking_per_slot d ->
  get_time_slot sid d = Some slot ->
  slot_booking slot d = Some b ->
  PyStr.lower (Booking.user_email b)
  = PyStr.lower (BookingCancel.user_email payload) ->
  cancel_booking sid payload d = (Ok tt, without_booking b d)
  /\ ~ In b (bookings (without_booking b d))
  /\ slot_booking slot (without_booking b d) = None
  /\ forall now again,
      exists b', book_time_slot now sid again (without_booking b d)
                 = (Ok (BookingRead.model_validate b'),
                    with_booking b' (without_booking b d)).
Proof.
  intros Hinv Hs Hb He.
  assert (Hopen : slot_booking slot (without_booking b d) = None).
  { unfold slot_booking in *. simpl.
    destruct (find _ (filter _ _)) as [b'|] eqn:E; [|reflexivity].
    apply find_some in E. destruct E as [Hin Hsame].
    apply filter_In in Hin. destruct Hin as [Hin Hne].
    apply find_some in Hb. destruct Hb as [Hbin Hbsame].
    apply Z.eqb_eq in Hsame, Hbsame.
    assert (b' = b).
    { apply (NoDup_map_inj Booking.time_slot_id (bookings d)); auto.
      congruence. }
    subst b'. rewrite Z.eqb_refl in Hne. discriminate. }
  repeat split.
  - rewrite cancel_booking_unfold, Hs, Hb.
    apply String.eqb_eq in He. now rewrite He.
  - simpl. intros Hin. apply filter_In in Hin.
    rewrite Z.eqb_refl in Hin. destruct Hin. discriminate.
  - exact Hopen.
  - intros now again. eexists.
    rewrite book_time_slot_unfold.
    change (get_time_slot sid (without_booking b d))
      with (get_time_slot sid d).
    rewrite Hs, Hopen. reflexivity.
Qed.

(** C5, at the specification's own scenario: slot A is booked with the
    stored email "alice@x.com"; a cancel request with "ALICE@X.COM " has the
    same normalized email, yet [cancel_booking] compares the emails in lower
    case without trimming and raises the 403, leaving the booking. *)
Theorem cancel_with_padded_email_forbidden :
  let request := BookingCancel.mk "ALICE@X.COM " in
  option_map Booking.user_email
    (slot_booking (TimeSlot.mk 1 1 Scenario.t_10_00 Scenario.t_11_00)
       Scenario.booked_by_alice) = Some "alice@x.com"
  /\ normalize_email (BookingCancel.user_email request) = "alice@x.com"
  /\ cancel_booking 1 request Scenario.booked_by_alice
     = (Raise Forbidden, Scenario.booked_by_alice).
Proof.
  repeat split; vm_compute; reflexivity.
Qed.

(** ** One booking per slot *)

Lemma create_time_slot_bookings payload d :
  bookings (snd (create_time_slot payload d)) = bookings d.
Proof.
  rewrite create_time_slot_unfold.
  destruct (get_category _ d); [|reflexivity].
  destruct (_ <=? _); [reflexivity|].
  destruct (find _ _); [reflexivity|].
  unfold bind, add_time_slot.
  destruct (existsb _ _); [reflexivity|].
  unfold TimeSlotRead_model_validate.
  destruct (time_slot_read _ _); reflexivity.
Qed.

Lemma book_time_slot_bookings now sid payload d :
  bookings (snd (book_time_slot now sid payload d)) = bookings d
  \/ exists slot,
      get_time_slot sid d = Some slot
      /\ slot_booking slot d = None
      /\ bookings (snd (book_time_slot now sid payload d))
         = (bookings d ++ [new_booking now (TimeSlot.id slot) payload d])%list.
Proof.
  rewrite book_time_slot_unfold.
  destruct (get_time_slot sid d) as [slot|] eqn:Hs; [|now left].
  destruct (slot_booking slot d) as [b|] eqn:Hb.
  - left. destruct (_ =? _)%string; reflexivity.
  - right. exists slot. auto.
Qed.

Lemma cancel_booking_bookings sid payload d :
  bookings (snd (cancel_booking sid payload d)) = bookings d
  \/ exists b,
      bookings (snd (cancel_booking sid payload d))
      = filter (fun b' => negb (Booking.id b' =? Booking.id b)) (bookings d).
Proof.
  rewrite cancel_booking_unfold.
  destruct (get_time_slot sid d) as [slot|]; [|now left].
  destruct (slot_booking slot d) as [b|]; [|now left].
  destruct (_ =? _)%string; [right; exists b|left]; reflexivity.
Qed.

Lemma slot_booking_none_not_in slot d :
  slot_booking slot d = None ->
  ~ In (TimeSlot.id slot) (map Booking.time_slot_id (bookings d)).
Proof.
  unfold slot_booking. intros Hnone Hin.
  apply in_map_iff in Hin. destruct Hin as [b [Hb Hin]].
  pose proof (find_none _ _ Hnone b Hin) as H. simpl in H.
  rewrite Hb, Z.eqb_refl in H. discriminate.
Qed.

Lemma book_time_slot_one_booking now sid payload d :
  one_booking_per_slot d ->
  one_booking_per_slot (snd (book_time_slot now sid payload d)).
Proof.
  unfold one_booking_per_slot. intros Hinv.
  destruct (book_time_slot_bookings now sid payload d)
    as [->|[slot [Hs [Hopen ->]]]]; [assumption|].
  rewrite map_app. simpl. apply NoDup_snoc; [assumption|].
  now apply slot_booking_none_not_in.
Qed.

Lemma cancel_booking_one_booking sid payload d :
  one_booking_per_slot d ->
  one_booking_per_slot (snd (cancel_booking sid payload d)).
Proof.
  unfold one_booking_per_slot. intros Hinv.
  destruct (cancel_booking_bookings sid payload d) as [->|[b ->]];
    [assumption|].
  now apply NoDup_map_filter.
Qed.

Lemma create_time_slot_one_booking payload d :
  one_booking_per_slot d ->
  one_booking_per_slot (snd (create_time_slot payload d)).
Proof.
  unfold one_booking_per_slot. now rewrite create_time_slot_bookings.
Qed.

Lemma add_booking_one_booking now sid uname email d :
  one_booking_per_slot d ->
  one_booking_per_slot (snd (add_booking now sid uname email d)).
Proof.
  unfold one_booking_per_slot, add_booking. intros Hinv.
  destruct (existsb _ (bookings d)) eqn:E; simpl; [assumption|].
  rewrite map_app. simpl. apply NoDup_snoc; [assumption|].
  intros Hin. apply in_map_iff in Hin. destruct Hin as [b [Hb Hin]].
  assert (existsb (fun b => Booking.time_slot_id b =? sid) (bookings d) = true).
  { apply existsb_exists. exists b. split; [assumption|].
    now apply Z.eqb_eq. }
  congruence.
Qed.

Lemma add_booking_taken now sid uname email d :
  In sid (map Booking.time_slot_id (bookings d)) ->
  add_booking now sid uname email d = (Raise IntegrityError, d).
Proof.
  intros Hin. unfold add_booking.
  apply in_map_iff in Hin. destruct Hin as [b [Hb Hin]].
  assert (E : existsb (fun b => Booking.time_slot_id b =? sid) (bookings d)
              = true).
  { apply existsb_exists. exists b. split; [assumption|].
    now apply Z.eqb_eq. }
  now rewrite E.
Qed.

(** C10. From tables in which every slot has at most one booking, booking,
    cancelling and slot creation lead to tables in which every slot has at
    most one booking; booking a slot that has a booking leaves the booking
    table as it is; and the insert itself, whatever the handler checked,
    refuses a second booking for a slot with an integrity error and so
    keeps the invariant by the unique constraint alone. *)
Theorem one_booking_per_slot_preserved :
  forall (d : db),
    one_booking_per_slot d ->
    (forall now sid payload,
        one_booking_per_slot (snd (book_time_slot now sid payload d)))
    /\ (forall sid payload,
           one_booking_per_slot (snd (cancel_booking sid payload d)))
    /\ (forall payload,
           one_booking_per_slot (snd (create_time_slot payload d)))
    /\ (forall now sid payload slot b,
           get_time_slot sid d = Some slot ->
           slot_booking slot d = Some b ->
           bookings (snd (book_time_slot now sid payload d)) = bookings d)
    /\ (forall now sid uname email,
           one_booking_per_slot (snd (add_booking now sid uname email d))
           /\ (In sid (map Booking.time_slot_id (bookings d)) ->
               add_booking now sid uname email d = (Raise IntegrityError, d))).
Proof.
  intros d Hinv. repeat split.
  - intros. now apply book_time_slot_one_booking.
  - intros. now apply cancel_booking_one_booking.
  - intros. now apply create_time_slot_one_booking.
  - intros now sid payload slot b Hs Hb.
    rewrite book_time_slot_unfold, Hs, Hb.
    destruct (_ =? _)%string; reflexivity.
  - now apply add_booking_one_booking.
  - apply add_booking_taken.
Qed.

Lemma one_booking_per_slot_preserved_witness :
  one_booking_per_slot
    (snd (book_time_slot Scenario.t_10_00 1
            (BookingCreate.mk "Bob" "bob@x.com") Scenario.booked_by_alice))
  /\ add_booking Scenario.t_10_00 1 "Bob" "bob@x.com" Scenario.booked_by_alice
     = (Raise IntegrityError, Scenario.booked_by_alice).
Proof.
  assert (Hinv : one_booking_per_slot Scenario.booked_by_alice).
  { unfold one_booking_per_slot. simpl.
    constructor; [simpl; tauto|constructor]. }
  destruct (one_booking_per_slot_preserved Scenario.booked_by_alice Hinv)
    as [Hbook [_ [_ [_ Hadd]]]].
  split.
  - apply Hbook.
  - apply (proj2 (Hadd Scenario.t_10_00 1 "Bob" "bob@x.com")).
    simpl. left. reflexivity.
Defined.

(** ** Listing slots *)

Section OrderBy.

Context {A : Type} (key : A -> Z).

Lemma insert_by_perm x l : Permutation (insert_by key x l) (x :: l).
Proof.
  induction l as [|y r IH]; simpl; [reflexivity|].
  destruct (key x <? key y); [reflexivity|].
  rewrite IH. apply perm_swap.
Qed.

Lemma order_by_perm l : Permutation (order_by key l) l.
Proof.
  induction l as [|x r IH]; simpl; [reflexivity|].
  rewrite insert_by_perm. now constructor.
Qed.

Lemma Forall_insert_by (P : A -> Prop) x l :
  P x -> Forall P l -> Forall P (insert_by key x l).
Proof.
  intros Hx Hl. induction Hl as [|y r Hy Hr IH]; simpl.
  - repeat constructor. assumption.
  - destruct (key x <? key y); repeat constructor; assumption.
Qed.

Lemma insert_by_sorted x l :
  StronglySorted (le_by key) l -> StronglySorted (le_by key) (insert_by key x l).
Proof.
  induction 1 as [|y r Hr IH Hy]; simpl.
  - repeat constructor.
  - destruct (Z.ltb_spec (key x) (key y)).
    + constructor; [now constructor|].
      constructor; [unfold le_by; lia|].
      eapply Forall_impl; [|exact Hy].
      unfold le_by. intros; lia.
    + constructor; [assumption|].
      apply Forall_insert_by; [unfold le_by; lia|assumption].
Qed.

Lemma order_by_sorted l : StronglySorted (le_by key) (order_by key l).
Proof.
  induction l as [|x r IH]; simpl; [constructor|].
  now apply insert_by_sorted.
Qed.


End OrderBy.

Lemma truthy_iff s : PyStr.truthy s = true <-> s <> "".
Proof. destruct s; simpl; split; congruence. Qed.








(** C9. When both dates parse and the end is strictly before the start (as
    Python compares them: the wall clocks of two naive dates, the instants
    of two aware ones), [list_time_slots] raises a 400 and returns no list;
    for non-empty date strings it is the 400 "end_date must not be earlier
    than start_date.".  Nothing is written. *)
Theorem list_time_slots_end_before_start :
  forall (fromisoformat : string -> option PyDatetime.t)
         (int : string -> option Z)
         (start_date end_date : string) (category_ids : option string)
         (d : db) (start_dt end_dt : PyDatetime.t),
    fromisoformat start_date = Some start_dt ->
    fromisoformat end_date = Some end_dt ->
    PyDatetime.lt end_dt start_dt = Some true ->
    (exists detail,
        list_time_slots fromisoformat int start_date end_date category_ids d
        = (Raise (HTTPException HTTP_400_BAD_REQUEST detail), d))
    /\ (start_date <> "" -> end_date <> "" ->
        list_time_slots fromisoformat int start_date end_date category_ids d
        = (Raise EndBeforeStart, d)).
Proof.
  intros fromisoformat int start_date end_date category_ids d start_dt end_dt
    Hps Hpe Hlt.
  assert (Hrun :
    PyStr.truthy start_date = true -> PyStr.truthy end_date = true ->
    list_time_slots fromisoformat int start_date end_date category_ids d
    = (Raise EndBeforeStart, d)).
  { intros Hs He. unfold list_time_slots.
    rewrite Hs, He, Hps, Hpe, Hlt. reflexivity. }
  split.
  - destruct (PyStr.truthy start_date) eqn:Hs;
      [destruct (PyStr.truthy end_date) eqn:He|].
    + eexists. now apply Hrun.
    + eexists. unfold list_time_slots. rewrite Hs, He. reflexivity.
    + eexists. unfold list_time_slots. rewrite Hs. reflexivity.
  - intros Hs He. apply Hrun; now apply truthy_iff.
Qed.

Lemma list_time_slots_end_before_start_witness :
  list_time_slots Parsers.iso_date Parsers.decimal
    "2024-06-02" "2024-06-01" None Scenario.booked_by_alice
  = (Raise EndBeforeStart, Scenario.booked_by_alice).
Proof.
  apply (list_time_slots_end_before_start Parsers.iso_date Parsers.decimal
           "2024-06-02" "2024-06-01" None Scenario.booked_by_alice
           (PyDatetime.naive (19876 * one_day))
           (PyDatetime.naive (19875 * one_day))).
  - vm_compute. reflexivity.
  - vm_compute. reflexivity.
  - vm_compute. reflexivity.
  - discriminate.
  - discriminate.
Defined.

(** ** Reachable states *)



Lemma cancel_booking_state sid payload d :
  snd (cancel_booking sid payload d) = d
  \/ exists b, snd (cancel_booking sid payload d) = without_booking b d.
Proof.
  rewrite cancel_booking_unfold.
  destruct (get_time_slot sid d) as [slot|]; [|now left].
  destruct (slot_booking slot d) as [b|]; [|now left].
  destruct (_ =? _)%string; [right; exists b|left]; reflexivity.
Qed.






(** * Further properties of the endpoints *)

(** ** Outcomes: every endpoint is all-or-nothing *)



(** X4. [book_time_slot] ends in the 404 for the slot, the 409 for a booked
    slot, or a response; it never ends in an integrity error.  When it
    raises the tables are unchanged.  When it responds, either the slot had
    that booking already and the tables are unchanged, or the slot was open
    and exactly one booking, the one in the response, has been appended. *)
Theorem book_time_slot_all_or_nothing :
  forall (now : datetime) (sid : Z) (payload : BookingCreate.t) (d : db),
    (fst (book_time_slot now sid payload d) = Raise SlotNotFound
     \/ fst (book_time_slot now sid payload d) = Raise AlreadyBooked
     \/ exists r, fst (book_time_slot now sid payload d) = Ok r)
    /\ (forall e, fst (book_time_slot now sid payload d) = Raise e ->
                  snd (book_time_slot now sid payload d) = d)
    /\ (forall r, fst (book_time_slot now sid payload d) = Ok r ->
          exists slot b,
            get_time_slot sid d = Some slot
            /\ r = BookingRead.model_validate b
            /\ Booking.time_slot_id b = sid
            /\ ((slot_booking slot d = Some b
                 /\ snd (book_time_slot now sid payload d) = d)
                \/ (slot_booking slot d = None
                    /\ ~ In (Booking.id b) (map Booking.id (bookings d))
                    /\ snd (book_time_slot now sid payload d)
                       = mkdb (event_categories d) (time_slots d)
                           (bookings d ++ [b])))).
Proof.
  intros now sid payload d. rewrite book_time_slot_unfold.
  destruct (get_time_slot sid d) as [slot|] eqn:Hs.
  2:{ simpl. repeat split; auto; discriminate. }
  pose proof (get_time_slot_id _ _ _ Hs) as Hid.
  destruct (slot_booking slot d) as [b|] eqn:Hb.
  - destruct (_ =? _)%string; simpl.
    + split; [right; right; eauto|]. split; [discriminate|].
      intros r Hr. injection Hr as <-. exists slot, b.
      repeat split; auto.
      unfold slot_booking in Hb. apply find_some in Hb.
      destruct Hb as [_ Hb]. apply Z.eqb_eq in Hb. congruence.
    + repeat split; auto; discriminate.
  - simpl. split; [right; right; eauto|]. split; [discriminate|].
    intros r Hr. injection Hr as <-.
    exists slot, (new_booking now (TimeSlot.id slot) payload d).
    repeat split; auto.
    right. repeat split; auto. apply next_id_fresh.
Qed.

Lemma book_time_slot_all_or_nothing_witness :
  snd (book_time_slot Scenario.t_10_00 1 (BookingCreate.mk "Bob" "bob@x.com")
         Scenario.booked_by_alice)
  = Scenario.booked_by_alice.
Proof.
  apply (book_time_slot_all_or_nothing Scenario.t_10_00 1
           (BookingCreate.mk "Bob" "bob@x.com") Scenario.booked_by_alice)
    with (e := AlreadyBooked).
  vm_compute. reflexivity.
Defined.

(** X5. [cancel_booking] ends in the 404 for the slot, the 404 for a slot
    without booking, the 403, or success.  When it raises the tables are
    unchanged.  When it succeeds the slot had a booking, that booking is no
    longer stored, no row was added, and categories and slots are
    untouched. *)
Theorem cancel_booking_all_or_nothing :
  forall (sid : Z) (payload : BookingCancel.t) (d : db),
    (fst (cancel_booking sid payload d) = Raise SlotNotFound
     \/ fst (cancel_booking sid payload d) = Raise NoBooking
     \/ fst (cancel_booking sid payload d) = Raise Forbidden
     \/ fst (cancel_booking sid payload d) = Ok tt)
    /\ (forall e, fst (cancel_booking sid payload d) = Raise e ->
                  snd (cancel_booking sid payload d) = d)
    /\ (fst (cancel_booking sid payload d) = Ok tt ->
        exists slot b,
          get_time_slot sid d = Some slot
          /\ slot_booking slot d = Some b
          /\ ~ In b (bookings (snd (cancel_booking sid payload d)))
          /\ (forall b', In b' (bookings (snd (cancel_booking sid payload d)))
                         -> In b' (bookings d))
          /\ event_categories (snd (cancel_booking sid payload d))
             = event_categories d
          /\ time_slots (snd (cancel_booking sid payload d)) = time_slots d).
Proof.
  intros sid payload d. rewrite cancel_booking_unfold.
  destruct (get_time_slot sid d) as [slot|] eqn:Hs.
  2:{ simpl. repeat split; auto; discriminate. }
  destruct (slot_booking slot d) as [b|] eqn:Hb.
  2:{ simpl. repeat split; auto; discriminate. }
  destruct (_ =? _)%string; simpl.
  - split; [auto|]. split; [discriminate|].
    intros _. exists slot, b. repeat split; auto.
    + intros Hin. apply filter_In in Hin.
      rewrite Z.eqb_refl in Hin. destruct Hin. discriminate.
    + intros b' Hin. now apply filter_In in Hin.
  - split; [auto|]. split; [reflexivity|discriminate].
Qed.

Lemma cancel_booking_all_or_nothing_witness :
  snd (cancel_booking 1 (BookingCancel.mk "bob@x.com") Scenario.booked_by_alice)
  = Scenario.booked_by_alice.
Proof.
  apply (cancel_booking_all_or_nothing 1 (BookingCancel.mk "bob@x.com")
           Scenario.booked_by_alice) with (e := Forbidden).
  vm_compute. reflexivity.
Defined.

(** ** Keys, references and disjointness in reachable states *)

Lemma create_time_slot_cases payload d :
  snd (create_time_slot payload d) = d
  \/ (TimeSlotCreate.start_time payload < TimeSlotCreate.end_time payload
      /\ find (overlapping_where payload) (time_slots d) = None
      /\ snd (create_time_slot payload d) = with_new_slot payload d).
Proof.
  destruct (get_category (TimeSlotCreate.category_id payload) d) as [c|] eqn:Hc.
  - destruct (Z.leb_spec (TimeSlotCreate.end_time payload)
                (TimeSlotCreate.start_time payload)) as [Hle|Hlt].
    + left. rewrite create_time_slot_unfold, Hc.
      apply Z.leb_le in Hle. now rewrite Hle.
    + destruct (find (overlapping_where payload) (time_slots d)) eqn:E.
      * left. rewrite create_time_slot_unfold, Hc, E.
        destruct (_ <=? _); reflexivity.
      * right. rewrite (create_time_slot_ok _ _ _ Hc Hlt E). auto.
  - left. now rewrite create_time_slot_unfold, Hc.
Qed.

Lemma book_time_slot_cases now sid payload d :
  snd (book_time_slot now sid payload d) = d
  \/ exists slot,
      get_time_slot sid d = Some slot
      /\ slot_booking slot d = None
      /\ snd (book_time_slot now sid payload d)
         = with_booking (new_booking now (TimeSlot.id slot) payload d) d.
Proof.
  rewrite book_time_slot_unfold.
  destruct (get_time_slot sid d) as [slot|] eqn:Hs; [|now left].
  destruct (slot_booking slot d) as [b|] eqn:Hb.
  - left. destruct (_ =? _)%string; reflexivity.
  - right. exists slot. auto.
Qed.

Lemma get_time_slot_In sid d slot :
  get_time_slot sid d = Some slot -> In slot (time_slots d).
Proof. unfold get_time_slot. intros H. now apply find_some in H. Qed.










(** ** How the endpoints compose *)

Lemma create_time_slot_Ok_inv payload d r d1 :
  create_time_slot payload d = (Ok r, d1) ->
  exists c,
    get_category (TimeSlotCreate.category_id payload) d = Some c
    /\ TimeSlotCreate.start_time payload < TimeSlotCreate.end_time payload
    /\ find (overlapping_where payload) (time_slots d) = None
    /\ d1 = with_new_slot payload d
    /\ time_slot_read (new_slot payload d) d1 = Some r.
Proof.
  intros Hrun.
  destruct (get_category (TimeSlotCreate.category_id payload) d) as [c|] eqn:Hc.
  2:{ rewrite create_time_slot_unfold, Hc in Hrun. discriminate. }
  destruct (Z.leb_spec (TimeSlotCreate.end_time payload)
              (TimeSlotCreate.start_time payload)) as [Hle|Hlt].
  { rewrite create_time_slot_unfold, Hc in Hrun.
    apply Z.leb_le in Hle. rewrite Hle in Hrun. discriminate. }
  destruct (find (overlapping_where payload) (time_slots d)) as [s|] eqn:E.
  { rewrite create_time_slot_unfold, Hc, E in Hrun.
    destruct (_ <=? _); discriminate. }
  rewrite (create_time_slot_ok _ _ _ Hc Hlt E) in Hrun.
  injection Hrun as <- <-.
  exists c. repeat split; auto.
  unfold time_slot_read.
  change (get_category (TimeSlot.category_id (new_slot payload d))
            (with_new_slot payload d))
    with (get_category (TimeSlotCreate.category_id payload) d).
  now rewrite Hc.
Qed.

Lemma get_new_slot payload d :
  get_time_slot (TimeSlot.id (new_slot payload d)) (with_new_slot payload d)
  = Some (new_slot payload d).
Proof.
  unfold get_time_slot. simpl. apply find_app_last.
  - apply find_none_of. intros s Hin.
    destruct (Z.eqb_spec (TimeSlot.id s)
                (next_id (map TimeSlot.id (time_slots d)))) as [E|]; auto.
    exfalso. apply (next_id_fresh (map TimeSlot.id (time_slots d))).
    rewrite <- E. now apply in_map.
  - simpl. apply Z.eqb_refl.
Qed.

Lemma new_slot_open payload d :
  bookings_have_slot d ->
  slot_booking (new_slot payload d) (with_new_slot payload d) = None.
Proof.
  intros Hfk. unfold slot_booking. simpl. apply find_none_of.
  intros b Hin.
  destruct (Z.eqb_spec (Booking.time_slot_id b)
              (next_id (map TimeSlot.id (time_slots d)))) as [E|]; auto.
  exfalso. apply (next_id_fresh (map TimeSlot.id (time_slots d))).
  rewrite <- E. now apply Hfk.
Qed.

(** X8. When every booking belongs to a stored slot (as in every reachable
    state), a slot that [create_time_slot] has just created is open: the
    response shows no booking, looking its id up finds exactly that slot,
    and the next booking request for that id succeeds. *)
Theorem created_slot_is_open_and_bookable :
  forall (payload : TimeSlotCreate.t) (d d1 : db) (r : TimeSlotRead.t),
    bookings_have_slot d ->
    create_time_slot payload d = (Ok r, d1) ->
    TimeSlotRead.booking r = None
    /\ get_time_slot (TimeSlotRead.id r) d1
       = Some (TimeSlot.mk (TimeSlotRead.id r)
                 (TimeSlotCreate.category_id payload)
                 (TimeSlotCreate.start_time payload)
                 (TimeSlotCreate.end_time payload))
    /\ forall now request,
        exists b,
          Booking.time_slot_id b = TimeSlotRead.id r
          /\ book_time_slot now (TimeSlotRead.id r) request d1
             = (Ok (BookingRead.model_validate b),
                mkdb (event_categories d1) (time_slots d1) (bookings d1 ++ [b])).
Proof.
  intros payload d d1 r Hfk Hrun.
  destruct (create_time_slot_Ok_inv _ _ _ _ Hrun)
    as [c [Hc [Hlt [Hfree [-> Hread]]]]].
  pose proof (new_slot_open payload d Hfk) as Hopen.
  pose proof (get_new_slot payload d) as Hget.
  unfold time_slot_read in Hread.
  change (get_category (TimeSlot.category_id (new_slot payload d))
            (with_new_slot payload d))
    with (get_category (TimeSlotCreate.category_id payload) d) in Hread.
  rewrite Hc, Hopen in Hread. injection Hread as <-. simpl.
  split; [reflexivity|]. split; [exact Hget|].
  intros now request.
  exists (new_booking now (TimeSlot.id (new_slot payload d)) request
            (with_new_slot payload d)).
  split; [reflexivity|].
  rewrite book_time_slot_unfold.
  change (next_id (map TimeSlot.id (time_slots d)))
    with (TimeSlot.id (new_slot payload d)).
  rewrite Hget, Hopen. reflexivity.
Qed.

Lemma created_slot_is_open_and_bookable_witness :
  exists b,
    Booking.time_slot_id b = 1
    /\ book_time_slot Scenario.t_10_00 1 (BookingCreate.mk "Bob" "bob@x.com")
         Scenario.with_slot_A
       = (Ok (BookingRead.model_validate b),
          mkdb (event_categories Scenario.with_slot_A)
            (time_slots Scenario.with_slot_A)
            (bookings Scenario.with_slot_A ++ [b])).
Proof.
  assert (Hfk : bookings_have_slot Scenario.empty) by (intros b []).
  assert (Hrun :
    create_time_slot (TimeSlotCreate.mk 1 Scenario.t_10_00 Scenario.t_11_00)
      Scenario.empty
    = (Ok (TimeSlotRead.mk 1 Scenario.t_10_00 Scenario.t_11_00
             (CategoryRead.mk 1 "Music" None) None),
       Scenario.with_slot_A)) by (vm_compute; reflexivity).
  destruct (created_slot_is_open_and_bookable _ _ _ _ Hfk Hrun)
    as [_ [_ Hbook]].
  apply (Hbook Scenario.t_10_00 (BookingCreate.mk "Bob" "bob@x.com")).
Defined.

Lemma filter_all {A} (f : A -> bool) l :
  (forall x, In x l -> f x = true) -> filter f l = l.
Proof.
  induction l as [|x l IH]; simpl; intros H; [reflexivity|].
  rewrite (H x (or_introl eq_refl)). f_equal. auto.
Qed.

Lemma db_eta d : mkdb (event_categories d) (time_slots d) (bookings d) = d.
Proof. destruct d; reflexivity. Qed.

(** The tables right after an open slot has been booked. *)
Lemma book_open_slot_state now sid payload d slot :
  get_time_slot sid d = Some slot ->
  slot_booking slot d = None ->
  book_time_slot now sid payload d
  = (Ok (BookingRead.model_validate (new_booking now sid payload d)),
     with_booking (new_booking now sid payload d) d)
  /\ get_time_slot sid (with_booking (new_booking now sid payload d) d)
     = Some slot
  /\ slot_booking slot (with_booking (new_booking now sid payload d) d)
     = Some (new_booking now sid payload d).
Proof.
  intros Hs Hopen.
  pose proof (get_time_slot_id _ _ _ Hs) as Hid.
  rewrite book_time_slot_unfold, Hs, Hopen, Hid.
  repeat split; auto.
  unfold slot_booking in *. simpl.
  apply find_app_last; [exact Hopen|].
  simpl. rewrite Hid. apply Z.eqb_refl.
Qed.

(** X9. Booking an open slot and then cancelling with an email whose lower
    case is the stored (lower-cased, trimmed) email of the booking brings
    the tables back exactly to what they were before the booking. *)
Theorem book_then_cancel_restores_tables :
  forall (now : datetime) (sid : Z) (booking : BookingCreate.t)
         (cancel : BookingCancel.t) (d : db) (slot : TimeSlot.t),
    get_time_slot sid d = Some slot ->
    slot_booking slot d = None ->
    PyStr.lower (BookingCancel.user_email cancel)
    = PyStr.strip (PyStr.lower (BookingCreate.user_email booking)) ->
    cancel_booking sid cancel (snd (book_time_slot now sid booking d))
    = (Ok tt, d).
Proof.
  intros now sid booking cancel d slot Hs Hopen Hsame.
  destruct (book_open_slot_state now sid booking d slot Hs Hopen)
    as [-> [Hs1 Hb1]].
  cbn [snd].
  rewrite cancel_booking_unfold, Hs1, Hb1.
  assert (He : (PyStr.lower (Booking.user_email (new_booking now sid booking d))
                =? PyStr.lower (BookingCancel.user_email cancel))%string
               = true).
  { apply String.eqb_eq. rewrite Hsame. simpl.
    apply lower_normalize_email. }
  rewrite He. f_equal.
  unfold without_booking. simpl.
  rewrite filter_app. simpl. rewrite Z.eqb_refl. simpl.
  rewrite app_nil_r, filter_all; [apply db_eta|].
  intros b Hin. apply negb_true_iff.
  destruct (Z.eqb_spec (Booking.id b)
              (next_id (map Booking.id (bookings d)))) as [E|]; auto.
  exfalso. apply (next_id_fresh (map Booking.id (bookings d))).
  rewrite <- E. now apply in_map.
Qed.

Lemma book_then_cancel_restores_tables_witness :
  cancel_booking 1 (BookingCancel.mk "ALICE@x.com")
    (snd (book_time_slot Scenario.t_10_00 1
            (BookingCreate.mk "Alice" " Alice@X.com ") Scenario.with_slot_A))
  = (Ok tt, Scenario.with_slot_A).
Proof.
  apply (book_then_cancel_restores_tables Scenario.t_10_00 1
           (BookingCreate.mk "Alice" " Alice@X.com ")
           (BookingCancel.mk "ALICE@x.com") Scenario.with_slot_A
           (TimeSlot.mk 1 1 Scenario.t_10_00 Scenario.t_11_00)).
  - vm_compute. reflexivity.
  - vm_compute. reflexivity.
  - vm_compute. reflexivity.
Defined.

(** X10. Sending the same booking request twice for an open slot: when the
    lower-cased email has no surrounding whitespace the second request
    returns the first response again and writes nothing; when it has, the
    second request raises the 409 conflict. *)
Theorem book_retry_idempotent_iff_unpadded :
  forall (now later : datetime) (sid : Z) (payload : BookingCreate.t)
         (d : db) (slot : TimeSlot.t),
    get_time_slot sid d = Some slot ->
    slot_booking slot d = None ->
    let first := book_time_slot now sid payload d in
    let email := PyStr.lower (BookingCreate.user_email payload) in
    (PyStr.strip email = email ->
     book_time_slot later sid payload (snd first) = (fst first, snd first))
    /\ (PyStr.strip email <> email ->
        book_time_slot later sid payload (snd first)
        = (Raise AlreadyBooked, snd first)).
Proof.
  intros now later sid payload d slot Hs Hopen first email.
  unfold first.
  destruct (book_open_slot_state now sid payload d slot Hs Hopen)
    as [-> [Hs1 Hb1]].
  cbn [fst snd].
  rewrite book_time_slot_unfold, Hs1, Hb1.
  cbn [new_booking Booking.user_email].
  rewrite lower_normalize_email. unfold normalize_email. fold email.
  destruct (String.eqb_spec (PyStr.strip email) email) as [E|E];
    split; intros H; try congruence; reflexivity.
Qed.

Lemma book_retry_idempotent_iff_unpadded_witness :
  book_time_slot Scenario.t_11_00 1 (BookingCreate.mk "Alice" "Alice@x.com ")
    (snd (book_time_slot Scenario.t_10_00 1
            (BookingCreate.mk "Alice" "Alice@x.com ") Scenario.with_slot_A))
  = (Raise AlreadyBooked,
     snd (book_time_slot Scenario.t_10_00 1
            (BookingCreate.mk "Alice" "Alice@x.com ") Scenario.with_slot_A)).
Proof.
  apply (book_retry_idempotent_iff_unpadded Scenario.t_10_00 Scenario.t_11_00 1
           (BookingCreate.mk "Alice" "Alice@x.com ") Scenario.with_slot_A
           (TimeSlot.mk 1 1 Scenario.t_10_00 Scenario.t_11_00)).
  - vm_compute. reflexivity.
  - vm_compute. reflexivity.
  - vm_compute. discriminate.
Defined.

(** X11. [cancel_booking] on a booked slot decides by the lower-cased
    emails alone.  When they are equal (and each slot has at most one
    booking) the booking is deleted, the slot has no booking any more and a
    booking request for it succeeds again; when they differ the 403 is
    raised and the tables are unchanged. *)
Theorem cancel_booking_decides_by_lower_case :
  forall (sid : Z) (payload : BookingCancel.t) (d : db)
         (slot : TimeSlot.t) (b : Booking.t),
    one_booking_per_slot d ->
    get_time_slot sid d = Some slot ->
    slot_booking slot d = Some b ->
    (PyStr.lower (Booking.user_email b)
     = PyStr.lower (BookingCancel.user_email payload) ->
     fst (cancel_booking sid payload d) = Ok tt
     /\ bookings (snd (cancel_booking sid payload d))
        = filter (fun b' => negb (Booking.id b' =? Booking.id b)) (bookings d)
     /\ slot_booking slot (snd (cancel_booking sid payload d)) = None
     /\ forall now again,
         exists r,
           fst (book_time_slot now sid again (snd (cancel_booking sid payload d)))
           = Ok r)
    /\ (PyStr.lower (Booking.user_email b)
        <> PyStr.lower (BookingCancel.user_email payload) ->
        cancel_booking sid payload d = (Raise Forbidden, d)).
Proof.
  intros sid payload d slot b Hinv Hs Hb. split.
  - intros He.
    destruct (cancel_booking_same_lower sid payload d slot b Hinv Hs Hb He)
      as [-> [_ [Hopen Hagain]]].
    cbn [fst snd]. split; [reflexivity|]. split; [reflexivity|].
    split; [exact Hopen|].
    intros now again. destruct (Hagain now again) as [b' ->].
    eexists. reflexivity.
  - intros Hne. rewrite cancel_booking_unfold, Hs, Hb.
    destruct (String.eqb_spec (PyStr.lower (Booking.user_email b))
                (PyStr.lower (BookingCancel.user_email payload)));
      [contradiction|reflexivity].
Qed.

Lemma cancel_booking_decides_by_lower_case_witness :
  fst (cancel_booking 1 (BookingCancel.mk "Alice@X.COM")
         Scenario.booked_by_alice) = Ok tt
  /\ cancel_booking 1 (BookingCancel.mk "bob@x.com") Scenario.booked_by_alice
     = (Raise Forbidden, Scenario.booked_by_alice).
Proof.
  assert (Hinv : one_booking_per_slot Scenario.booked_by_alice).
  { unfold one_booking_per_slot. simpl.
    constructor; [simpl; tauto|constructor]. }
  assert (Hs : get_time_slot 1 Scenario.booked_by_alice
               = Some (TimeSlot.mk 1 1 Scenario.t_10_00 Scenario.t_11_00))
    by (vm_compute; reflexivity).
  assert (Hb : slot_booking (TimeSlot.mk 1 1 Scenario.t_10_00 Scenario.t_11_00)
                 Scenario.booked_by_alice
               = Some (Booking.mk 1 1 "Alice" "alice@x.com"
                         (Scenario.t_10_00 - 3600 * 1000000)))
    by (vm_compute; reflexivity).
  split.
  - apply (cancel_booking_decides_by_lower_case 1
             (BookingCancel.mk "Alice@X.COM") _ _ _ Hinv Hs Hb).
    vm_compute. reflexivity.
  - apply (cancel_booking_decides_by_lower_case 1
             (BookingCancel.mk "bob@x.com") _ _ _ Hinv Hs Hb).
    vm_compute. discriminate.
Defined.

Lemma find_filter_agree {A} (f g : A -> bool) l :
  (forall x, In x l -> f x = true -> g x = true) ->
  find f (filter g l) = find f l.
Proof.
  induction l as [|x l IH]; simpl; intros H; [reflexivity|].
  destruct (f x) eqn:Ef.
  - rewrite (H x (or_introl eq_refl) Ef). simpl. now rewrite Ef.
  - destruct (g x); simpl; [rewrite Ef|]; auto.
Qed.

Lemma find_app_miss {A} (f : A -> bool) l x :
  f x = false -> find f (l ++ [x]) = find f l.
Proof.
  intros Hx. induction l as [|y l IH]; simpl.
  - now rewrite Hx.
  - destruct (f y); auto.
Qed.

(** X12. Requests for one slot leave the bookings of every other slot as
    they are: after booking or (with unique booking ids) cancelling slot
    [sid], and after creating a slot, a slot with another id has the booking
    it had. *)
Theorem other_slots_keep_their_booking :
  forall (d : db) (sid : Z) (other : TimeSlot.t),
    TimeSlot.id other <> sid ->
    (forall now payload,
        slot_booking other (snd (book_time_slot now sid payload d))
        = slot_booking other d)
    /\ (forall payload,
           booking_ids_unique d ->
           slot_booking other (snd (cancel_booking sid payload d))
           = slot_booking other d)
    /\ (forall payload,
           slot_booking other (snd (create_time_slot payload d))
           = slot_booking other d).
Proof.
  intros d sid other Hother. repeat split.
  - intros now payload.
    destruct (book_time_slot_cases now sid payload d)
      as [->|[slot [Hs [_ ->]]]]; [reflexivity|].
    unfold slot_booking. simpl. apply find_app_miss. simpl.
    rewrite (get_time_slot_id _ _ _ Hs).
    destruct (Z.eqb_spec sid (TimeSlot.id other)); congruence.
  - intros payload Huniq. rewrite cancel_booking_unfold.
    destruct (get_time_slot sid d) as [slot|] eqn:Hs; [|reflexivity].
    destruct (slot_booking slot d) as [b|] eqn:Hb; [|reflexivity].
    destruct (_ =? _)%string; [|reflexivity].
    unfold slot_booking in *. simpl. apply find_filter_agree.
    intros b' Hin Hb'. apply negb_true_iff.
    destruct (Z.eqb_spec (Booking.id b') (Booking.id b)) as [E|]; auto.
    exfalso. apply find_some in Hb. destruct Hb as [Hbin Hbs].
    assert (b' = b)
      by (apply (NoDup_map_inj Booking.id (bookings d)); auto).
    subst b'. apply Z.eqb_eq in Hb', Hbs.
    rewrite (get_time_slot_id _ _ _ Hs) in Hbs. congruence.
  - intros payload. unfold slot_booking.
    now rewrite create_time_slot_bookings.
Qed.

Lemma other_slots_keep_their_booking_witness :
  slot_booking (TimeSlot.mk 1 1 Scenario.t_10_00 Scenario.t_11_00)
    (snd (book_time_slot Scenario.t_10_00 2
            (BookingCreate.mk "Bob" "bob@x.com") Scenario.booked_by_alice))
  = slot_booking (TimeSlot.mk 1 1 Scenario.t_10_00 Scenario.t_11_00)
      Scenario.booked_by_alice.
Proof.
  apply (other_slots_keep_their_booking Scenario.booked_by_alice 2
           (TimeSlot.mk 1 1 Scenario.t_10_00 Scenario.t_11_00)).
  vm_compute. discriminate.
Defined.





(** ** What requests never touch *)

Lemma prefix_of_refl {A} (l : list A) : prefix_of l l.
Proof. exists []. now rewrite app_nil_r. Qed.

Lemma prefix_of_trans {A} (l1 l2 l3 : list A) :
  prefix_of l1 l2 -> prefix_of l2 l3 -> prefix_of l1 l3.
Proof.
  intros [r1 ->] [r2 ->]. exists (r1 ++ r2)%list. now rewrite app_assoc.
Qed.

Lemma serve_categories r d : event_categories (serve r d) = event_categories d.
Proof.
  destruct r as [payload|now sid payload|sid payload]; simpl.
  - destruct (create_time_slot_cases payload d) as [->|[_ [_ ->]]]; reflexivity.
  - destruct (book_time_slot_cases now sid payload d) as [->|[slot [_ [_ ->]]]];
      reflexivity.
  - destruct (cancel_booking_state sid payload d) as [->|[b ->]]; reflexivity.
Qed.

Lemma serve_slots_prefix r d : prefix_of (time_slots d) (time_slots (serve r d)).
Proof.
  destruct r as [payload|now sid payload|sid payload]; simpl.
  - destruct (create_time_slot_cases payload d) as [->|[_ [_ ->]]].
    + apply prefix_of_refl.
    + simpl. eexists. reflexivity.
  - destruct (book_time_slot_cases now sid payload d) as [->|[slot [_ [_ ->]]]];
      apply prefix_of_refl.
  - destruct (cancel_booking_state sid payload d) as [->|[b ->]];
      apply prefix_of_refl.
Qed.

(** X16. No sequence of create, book and cancel requests changes the
    category table, and none removes, changes or reorders a stored slot:
    the slot table only grows at its end. *)
Theorem requests_keep_categories_and_slots :
  forall (requests : list request) (d : db),
    event_categories (fold_left (fun d r => serve r d) requests d)
    = event_categories d
    /\ prefix_of (time_slots d)
         (time_slots (fold_left (fun d r => serve r d) requests d)).
Proof.
  induction requests as [|r rs IH]; intros d; simpl.
  - split; [reflexivity|apply prefix_of_refl].
  - destruct (IH (serve r d)) as [Hc Hs]. split.
    + now rewrite Hc, serve_categories.
    + eapply prefix_of_trans; [apply serve_slots_prefix|exact Hs].
Qed.

(** X1. [init_database] always succeeds and touches neither slots nor
    bookings.  On tables that have a category it changes nothing; on tables
    without it stores exactly "Cat 1", "Cat 2", "Cat 3"; so running it a
    second time changes nothing. *)
Theorem init_database_idempotent :
  forall d : db,
    fst (init_database d) = Ok tt
    /\ time_slots (snd (init_database d)) = time_slots d
    /\ bookings (snd (init_database d)) = bookings d
    /\ (event_categories d <> [] -> snd (init_database d) = d)
    /\ (event_categories d = [] ->
        map EventCategory.name (event_categories (snd (init_database d)))
        = ["Cat 1"; "Cat 2"; "Cat 3"])
    /\ init_database (snd (init_database d)) = (Ok tt, snd (init_database d)).
Proof.
  intros d. unfold init_database.
  destruct (event_categories d) as [|c cs] eqn:E; simpl.
  - repeat split; auto. congruence.
  - rewrite E. repeat split; auto. discriminate.
Qed.

Lemma init_database_idempotent_witness :
  snd (init_database Scenario.booked_by_alice) = Scenario.booked_by_alice.
Proof.
  apply (init_database_idempotent Scenario.booked_by_alice).
  vm_compute. discriminate.
Defined.

(** X2. [list_categories] writes nothing and returns every stored category
    exactly once, in ascending order of id. *)
Theorem list_categories_sorted_by_id :
  forall d : db,
    exists categories,
      list_categories d = (Ok (map CategoryRead.model_validate categories), d)
      /\ Permutation categories (event_categories d)
      /\ StronglySorted (le_by EventCategory.id) categories.
Proof.
  intros d. exists (order_by EventCategory.id (event_categories d)).
  split; [reflexivity|].
  split; [apply order_by_perm|apply order_by_sorted].
Qed.

(** ** More on listing slots *)










Lemma filter_nothing {A} (f : A -> bool) l :
  (forall x, In x l -> f x = false) -> filter f l = [].
Proof.
  induction l as [|x l IH]; simpl; intros H; [reflexivity|].
  rewrite (H x (or_introl eq_refl)). auto.
Qed.

(** X14. A [category_ids] parameter whose comma-separated parts are all
    blank (such as "", "," or " , ") is no filter: the answer is the one
    given when the parameter is absent, and [int] is never consulted. *)
Theorem blank_category_ids_select_all :
  forall (fromisoformat : string -> option PyDatetime.t)
         (int : string -> option Z)
         (start_date end_date given : string) (d : db),
    (forall part, In part (PyStr.split "," given) -> blank part) ->
    list_time_slots fromisoformat int start_date end_date (Some given) d
    = list_time_slots fromisoformat int start_date end_date None d.
Proof.
  intros fromisoformat int start_date end_date given d Hblank.
  assert (Hparse : parse_category_ids int given = Some []).
  { unfold parse_category_ids. rewrite filter_nothing; [reflexivity|].
    intros part Hin. unfold blank in Hblank. now rewrite (Hblank part Hin). }
  unfold list_time_slots. rewrite Hparse.
  destruct (PyStr.truthy given); reflexivity.
Qed.

Lemma blank_category_ids_select_all_witness :
  list_time_slots Parsers.iso_date Parsers.decimal
    "2024-06-01" "2024-06-01" (Some " , ") Scenario.booked_by_alice
  = list_time_slots Parsers.iso_date Parsers.decimal
      "2024-06-01" "2024-06-01" None Scenario.booked_by_alice.
Proof.
  apply (blank_category_ids_select_all Parsers.iso_date Parsers.decimal
           "2024-06-01" "2024-06-01" " , " Scenario.booked_by_alice).
  intros part [<-|[<-|[]]]; reflexivity.
Defined.

Lemma int_each_none int parts part :
  In part parts -> int part = None -> int_each int parts = None.
Proof.
  induction parts as [|p r IH]; simpl; intros Hin Hnone; [tauto|].
  destruct Hin as [->|Hin].
  - now rewrite Hnone.
  - destruct (int p); [|reflexivity]. now rewrite (IH Hin Hnone).
Qed.

(** X19. With dates that parse, compare as in order, and whose end can be
    advanced by a day, a [category_ids] parameter with a non-blank part that
    [int] rejects makes [list_time_slots] raise the 400 "category_ids must
    contain integers.", whatever the other parts are; nothing is written. *)
Theorem list_time_slots_rejects_bad_category_id :
  forall (fromisoformat : string -> option PyDatetime.t)
         (int : string -> option Z)
         (start_date end_date given part : string) (d : db)
         (start_dt end_dt : PyDatetime.t),
    start_date <> "" -> end_date <> "" ->
    fromisoformat start_date = Some start_dt ->
    fromisoformat end_date = Some end_dt ->
    PyDatetime.lt end_dt start_dt = Some false ->
    PyDatetime.wall end_dt + one_day <= PyDatetime.max_wall ->
    In part (PyStr.split "," given) ->
    ~ blank part ->
    int part = None ->
    list_time_slots fromisoformat int start_date end_date (Some given) d
    = (Raise (HTTPException HTTP_400_BAD_REQUEST
                "category_ids must contain integers."), d).
Proof.
  intros fromisoformat int start_date end_date given part d start_dt end_dt
    Hs He Hps Hpe Hord Hmax Hin Hnb Hnone.
  apply truthy_iff in Hs, He.
  assert (Hgiven : PyStr.truthy given = true).
  { destruct given; [|reflexivity].
    destruct Hin as [<-|[]]. exfalso. apply Hnb. reflexivity. }
  assert (Hparse : parse_category_ids int given = None).
  { unfold parse_category_ids. apply (int_each_none int _ part); [|exact Hnone].
    apply filter_In. split; [exact Hin|].
    apply truthy_iff. exact Hnb. }
  unfold list_time_slots.
  rewrite Hs, He, Hps, Hpe, Hord, Hgiven, Hparse. simpl.
  unfold PyDatetime.add_day.
  destruct (Z.leb_spec (PyDatetime.wall end_dt + one_day) PyDatetime.max_wall);
    [reflexivity|lia].
Qed.

Lemma list_time_slots_rejects_bad_category_id_witness :
  list_time_slots Parsers.iso_date Parsers.decimal
    "2024-06-01" "2024-06-02" (Some "1,,two") Scenario.booked_by_alice
  = (Raise (HTTPException HTTP_400_BAD_REQUEST
              "category_ids must contain integers."),
     Scenario.booked_by_alice).
Proof.
  apply (list_time_slots_rejects_bad_category_id Parsers.iso_date
           Parsers.decimal "2024-06-01" "2024-06-02" "1,,two" "two"
           Scenario.booked_by_alice (PyDatetime.naive (19875 * one_day))
           (PyDatetime.naive (19876 * one_day))).
  - discriminate.
  - discriminate.
  - vm_compute. reflexivity.
  - vm_compute. reflexivity.
  - vm_compute. reflexivity.
  - vm_compute. discriminate.
  - simpl. tauto.
  - vm_compute. discriminate.
  - vm_compute. reflexivity.
Defined.




(** ** Lookups by key *)

Lemma find_unique {A} (key : A -> Z) l x :
  NoDup (map key l) -> In x l ->
  find (fun y => key y =? key x) l = Some x.
Proof.
  induction l as [|y l IH]; simpl; intros Hnd Hin; [tauto|].
  inversion Hnd as [|? ? Hy Hl]; subst.
  destruct Hin as [->|Hin]; [now rewrite Z.eqb_refl|].
  destruct (Z.eqb_spec (key y) (key x)) as [E|]; [|auto].
  exfalso. apply Hy. rewrite E. now apply in_map.
Qed.

(** X20. Lookups reach what was stored.  With unique slot ids every stored
    slot is what its id finds; with at most one booking per slot a stored
    booking is the booking of its slot; and a slot id that is not stored
    gets the 404 "Time slot not found." from both [book_time_slot] and
    [cancel_booking], which write nothing. *)
Theorem lookups_by_key :
  forall d : db,
    (slot_ids_unique d ->
     forall s, In s (time_slots d) -> get_time_slot (TimeSlot.id s) d = Some s)
    /\ (one_booking_per_slot d ->
        forall s b, In b (bookings d) ->
                    Booking.time_slot_id b = TimeSlot.id s ->
                    slot_booking s d = Some b)
    /\ (forall sid,
           ~ In sid (map TimeSlot.id (time_slots d)) ->
           (forall now payload,
               book_time_slot now sid payload d = (Raise SlotNotFound, d))
           /\ (forall payload,
                  cancel_booking sid payload d = (Raise SlotNotFound, d))).
Proof.
  intros d. repeat split.
  - intros Huniq s Hin. unfold get_time_slot.
    now apply (find_unique TimeSlot.id).
  - intros Hone s b Hin Hsame. unfold slot_booking. rewrite <- Hsame.
    now apply (find_unique Booking.time_slot_id).
  - intros now payload. rewrite book_time_slot_unfold.
    destruct (get_time_slot sid d) as [slot|] eqn:Hs; [|reflexivity].
    exfalso. apply H. rewrite <- (get_time_slot_id _ _ _ Hs).
    apply in_map. now apply get_time_slot_In in Hs.
  - intros payload. rewrite cancel_booking_unfold.
    destruct (get_time_slot sid d) as [slot|] eqn:Hs; [|reflexivity].
    exfalso. apply H. rewrite <- (get_time_slot_id _ _ _ Hs).
    apply in_map. now apply get_time_slot_In in Hs.
Qed.

Lemma lookups_by_key_witness :
  book_time_slot Scenario.t_10_00 9 (BookingCreate.mk "Bob" "bob@x.com")
    Scenario.booked_by_alice
  = (Raise SlotNotFound, Scenario.booked_by_alice).
Proof.
  apply (lookups_by_key Scenario.booked_by_alice).
  simpl. intros [H|[]]. discriminate.
Defined.

(** ** What is stored of the submitted strings *)

Lemma length_lstrip s : (String.length (PyStr.lstrip s) <= String.length s)%nat.
Proof.
  induction s as [|c r IH]; simpl; [lia|].
  destruct (PyStr.is_space c); simpl; lia.
Qed.

Lemma length_rstrip s : (String.length (PyStr.rstrip s) <= String.length s)%nat.
Proof.
  induction s as [|c r IH]; simpl; [lia|].
  destruct (PyStr.rstrip r); [destruct (PyStr.is_space c)|];
    simpl in *; lia.
Qed.

Lemma length_strip s : (String.length (PyStr.strip s) <= String.length s)%nat.
Proof.
  unfold PyStr.strip.
  pose proof (length_rstrip (PyStr.lstrip s)). pose proof (length_lstrip s).
  lia.
Qed.

Lemma strip_all_space s : PyStr.all_space s = true -> PyStr.strip s = "".
Proof.
  intros H. unfold PyStr.strip.
  assert (PyStr.lstrip s = EmptyString) as ->; [|reflexivity].
  induction s as [|c r IH]; simpl; [reflexivity|].
  simpl in H. apply andb_true_iff in H. destruct H as [Hc Hr].
  rewrite Hc. auto.
Qed.

(** X17. What [book_time_slot] stores for an open slot: a name and an email
    with no blank at either end, the email unchanged by lower-casing (so the
    later comparisons lower-case it to no effect), the name not longer than
    the submitted one, and the slot id and the clock reading as they were
    given. *)
Theorem stored_booking_is_normalized :
  forall (now : datetime) (sid : Z) (payload : BookingCreate.t) (d : db)
         (slot : TimeSlot.t),
    get_time_slot sid d = Some slot ->
    slot_booking slot d = None ->
    exists b,
      slot_booking slot (snd (book_time_slot now sid payload d)) = Some b
      /\ Booking.time_slot_id b = sid
      /\ Booking.booked_at b = now
      /\ PyStr.no_lead (Booking.user_name b)
      /\ PyStr.no_trail (Booking.user_name b)
      /\ PyStr.no_lead (Booking.user_email b)
      /\ PyStr.no_trail (Booking.user_email b)
      /\ PyStr.lower (Booking.user_email b) = Booking.user_email b
      /\ (String.length (Booking.user_name b)
          <= String.length (BookingCreate.user_name payload))%nat.
Proof.
  intros now sid payload d slot Hs Hopen.
  destruct (book_open_slot_state now sid payload d slot Hs Hopen)
    as [-> [_ Hb]].
  exists (new_booking now sid payload d). cbn [snd].
  split; [exact Hb|]. simpl.
  split; [reflexivity|]. split; [reflexivity|].
  split; [apply PyStrFacts.rstrip_no_lead, PyStrFacts.lstrip_no_lead|].
  split; [apply PyStrFacts.rstrip_no_trail|].
  split; [apply PyStrFacts.rstrip_no_lead, PyStrFacts.lstrip_no_lead|].
  split; [apply PyStrFacts.rstrip_no_trail|].
  split; [apply lower_normalize_email|].
  apply length_strip.
Qed.

Lemma stored_booking_is_normalized_witness :
  exists b,
    slot_booking (TimeSlot.mk 1 1 Scenario.t_10_00 Scenario.t_11_00)
      (snd (book_time_slot Scenario.t_10_00 1
              (BookingCreate.mk "  Alice " " Alice@X.com ")
              Scenario.with_slot_A)) = Some b
    /\ Booking.time_slot_id b = 1
    /\ Booking.booked_at b = Scenario.t_10_00
    /\ PyStr.no_lead (Booking.user_name b)
    /\ PyStr.no_trail (Booking.user_name b)
    /\ PyStr.no_lead (Booking.user_email b)
    /\ PyStr.no_trail (Booking.user_email b)
    /\ PyStr.lower (Booking.user_email b) = Booking.user_email b
    /\ (String.length (Booking.user_name b) <= String.length "  Alice ")%nat.
Proof.
  apply (stored_booking_is_normalized Scenario.t_10_00 1
           (BookingCreate.mk "  Alice " " Alice@X.com ") Scenario.with_slot_A
           (TimeSlot.mk 1 1 Scenario.t_10_00 Scenario.t_11_00)).
  - vm_compute. reflexivity.
  - vm_compute. reflexivity.
Defined.

(** X21. The name of a payload that satisfies the [BookingCreate] schema is
    stored within the declared width of its column (120 characters); but the
    schema's minimum length is checked before trimming, so a valid name made
    of blanks only is stored as the empty string. *)
Theorem validated_booking_fits_columns :
  forall (now : datetime) (sid : Z) (payload : BookingCreate.t) (d : db)
         (slot : TimeSlot.t),
    BookingCreate_valid payload ->
    get_time_slot sid d = Some slot ->
    slot_booking slot d = None ->
    exists b,
      slot_booking slot (snd (book_time_slot now sid payload d)) = Some b
      /\ (String.length (Booking.user_name b) <= 120)%nat
      /\ (PyStr.all_space (BookingCreate.user_name payload) = true ->
          Booking.user_name b = "").
Proof.
  intros now sid payload d slot [Hname Hemail] Hs Hopen.
  destruct (book_open_slot_state now sid payload d slot Hs Hopen)
    as [-> [_ Hb]].
  exists (new_booking now sid payload d). cbn [snd].
  split; [exact Hb|]. simpl.
  pose proof (length_strip (BookingCreate.user_name payload)).
  split; [lia|]. apply strip_all_space.
Qed.

Lemma validated_booking_fits_columns_witness :
  exists b,
    slot_booking (TimeSlot.mk 1 1 Scenario.t_10_00 Scenario.t_11_00)
      (snd (book_time_slot Scenario.t_10_00 1
              (BookingCreate.mk "   " "a@b") Scenario.with_slot_A)) = Some b
    /\ Booking.user_name b = "".
Proof.
  destruct (validated_booking_fits_columns Scenario.t_10_00 1
              (BookingCreate.mk "   " "a@b") Scenario.with_slot_A
              (TimeSlot.mk 1 1 Scenario.t_10_00 Scenario.t_11_00))
    as [b [Hb [_ Hblank]]].
  - split; simpl; lia.
  - vm_compute. reflexivity.
  - vm_compute. reflexivity.
  - exists b. split; [exact Hb|]. apply Hblank. reflexivity.
Defined.
